(** * Verification of the stock analytics service (trading/app.py)

    The service downloads one month of daily prices for a fixed list of
    tickers and serves four JSON analytics: trend streaks, a momentum
    ranking, high/low performers and the deviation from a 20-day moving
    average.

    Embedding.  The market-data pull is the only input: it is a function
    [Market] from ticker symbols to the outcome of [yf.download].  Every
    endpoint is a pure function of that market.  Price cells are exact
    rationals ([Q]) standing for finite binary64 readings; the values pandas
    derives from them live in [float], which adds the two infinities and NaN
    so that a division by zero and the leading rows of a shifted or rolling
    column behave as they do in the code.

    Two arithmetics.  The endpoints are embedded in exact arithmetic, which
    agrees with the program on everything that does not depend on the last
    bits of a double: which rows exist, which values are missing, signs,
    status codes and the shape of the replies.  The value a momentum record
    reports does depend on them, so [calculate_momentum_data] is embedded a
    second time over binary64 numbers (module [Binary64]), and the statement
    about that value is made there. *)

From Stdlib Require Import ZArith QArith Qround Qabs List String Ascii Bool Lia
  Arith PeanoNat Permutation Sorted.
From Stdlib Require Import Lqa.
From Stdlib Require PrimFloat SpecFloat FloatOps.
Import ListNotations.
Open Scope string_scope.
Open Scope Q_scope.

(** ** Floating-point values of the derived columns *)

Inductive float : Type :=
| Fin (q : Q)
| PInf
| NInf
| NaN.

(** [a / b] on finite operands, as numpy divides, in exact arithmetic: a
    zero divisor gives an infinity with the sign of the dividend, and [0 / 0]
    gives NaN. *)
Definition fdiv (a b : Q) : float :=
  match Qcompare b 0 with
  | Eq => match Qcompare a 0 with
          | Eq => NaN
          | Gt => PInf
          | Lt => NInf
          end
  | _ => Fin (a / b)
  end.

(** [x - c] and [x * c] for a finite positive constant [c]. *)
Definition fsub (x : float) (c : Q) : float :=
  match x with
  | Fin q => Fin (q - c)
  | other => other
  end.

Definition fmul (x : float) (c : Q) : float :=
  match x with
  | Fin q => Fin (q * c)
  | other => other
  end.

(** Comparisons with zero; every comparison with NaN is false. *)
Definition flt0 (x : float) : bool :=
  match x with
  | Fin q => match Qcompare q 0 with Lt => true | _ => false end
  | NInf => true
  | _ => false
  end.

Definition fgt0 (x : float) : bool :=
  match x with
  | Fin q => match Qcompare q 0 with Gt => true | _ => false end
  | PInf => true
  | _ => false
  end.

Definition is_nan (x : float) : bool :=
  match x with NaN => true | _ => false end.

(** Order of the non-NaN values, used by [sort_values]. *)
Definition fleb (x y : float) : bool :=
  match x, y with
  | NaN, _ | _, NaN => false
  | NInf, _ => true
  | _, PInf => true
  | Fin a, Fin b => match Qcompare a b with Gt => false | _ => true end
  | _, _ => false
  end.

Definition fle (x y : float) : Prop := fleb x y = true.

(** ** Rounding to two decimals

    Python's [round(x, 2)] and pandas' [Series.round(2)] round to the nearest
    multiple of 0.01, ties to the even neighbour. *)

Definition round_half_even (q : Q) : Z :=
  let f := Qfloor q in
  match Qcompare (q - inject_Z f) (1 # 2) with
  | Lt => f
  | Gt => (f + 1)%Z
  | Eq => if Z.even f then f else (f + 1)%Z
  end.

Definition round2 (q : Q) : Q := inject_Z (round_half_even (q * 100)) / 100.

Definition fround2 (x : float) : float :=
  match x with
  | Fin q => Fin (round2 q)
  | other => other
  end.

(** ** Timestamps and their two renderings *)

Record Timestamp : Type := mkTimestamp {
  year : nat;
  month : nat;
  day : nat
}.

Definition digit (n : nat) : string :=
  String (ascii_of_nat (48 + n mod 10)) EmptyString.

Definition two_digits (n : nat) : string :=
  digit (n / 10) ++ digit n.

Definition four_digits (n : nat) : string :=
  digit (n / 1000) ++ digit (n / 100) ++ digit (n / 10) ++ digit n.

Definition month_abbr (m : nat) : string :=
  nth (m - 1)
    ["Jan"; "Feb"; "Mar"; "Apr"; "May"; "Jun";
     "Jul"; "Aug"; "Sep"; "Oct"; "Nov"; "Dec"] "".

(** [strftime("%Y-%m-%d")] *)
Definition strftime_ymd (t : Timestamp) : string :=
  four_digits (year t) ++ "-" ++ two_digits (month t) ++ "-" ++ two_digits (day t).

(** [strftime("%d-%b")] *)
Definition strftime_dmon (t : Timestamp) : string :=
  two_digits (day t) ++ "-" ++ month_abbr (month t).

(** ** Data frames

    A frame is a table: column labels and one row per trading day, each row
    a timestamp and one cell per label, so that every column has the length
    of the index.  The labels yfinance returns are either plain names or
    two-level tuples (price field, ticker).  Cells are finite; missing
    values in the downloaded prices are outside the model. *)

Inductive Columns : Type :=
| Index (names : list string)
| MultiIndex (tuples : list (string * string)).

Record DataFrame : Type := mkDataFrame {
  columns : Columns;
  rows : list (Timestamp * list Q)
}.

Definition empty_frame : DataFrame := mkDataFrame (Index []) [].

Definition column_count (c : Columns) : nat :=
  match c with
  | Index names => List.length names
  | MultiIndex tuples => List.length tuples
  end.

(** [len(df)] *)
Definition len (df : DataFrame) : nat := List.length (rows df).

(** [df.empty]: some axis has length zero. *)
Definition empty (df : DataFrame) : bool :=
  (len df =? 0)%nat || (column_count (columns df) =? 0)%nat.

(** [df.index] *)
Definition index (df : DataFrame) : list Timestamp := map fst (rows df).

Fixpoint position (name : string) (names : list string) : option nat :=
  match names with
  | [] => None
  | n :: rest =>
      if String.eqb n name then Some O
      else option_map S (position name rest)
  end.

(** Position of a plain label.  Frames reach the endpoints through
    [get_stock_data], which has flattened any MultiIndex by then, so tuple
    labels are never looked up by name. *)
Definition column_position (name : string) (df : DataFrame) : option nat :=
  match columns df with
  | Index names => position name names
  | MultiIndex _ => None
  end.

(** ["Close" in df.columns] *)
Definition has_column (name : string) (df : DataFrame) : bool :=
  match column_position name df with
  | Some _ => true
  | None => false
  end.

(** [df[name]] as the list of its cells, top to bottom.  Labels are taken
    to be distinct, as they are in the frame of a single ticker. *)
Definition column (name : string) (df : DataFrame) : list Q :=
  match column_position name df with
  | Some j => map (fun r => nth j (snd r) 0) (rows df)
  | None => []
  end.

(** [df.tail(n)] *)
Definition lastn {A : Type} (n : nat) (l : list A) : list A :=
  skipn (List.length l - n) l.

Definition tail (n : nat) (df : DataFrame) : DataFrame :=
  mkDataFrame (columns df) (lastn n (rows df)).

(** [s.iloc[-1]] on a non-empty series. *)
Definition iloc_last {A : Type} (l : list A) (d : A) : A := last l d.

Definition epoch : Timestamp := mkTimestamp 1970 1 1.

(** ** The market and [get_stock_data] *)

Inductive Download : Type :=
| Raised
| Returned (df : DataFrame).

Definition Market : Type := string -> Download.

Definition NIFTY_100 : list string :=
  ["RELIANCE.NS"; "TCS.NS"; "INFY.NS"; "HDFCBANK.NS"; "ICICIBANK.NS"; "SBIN.NS";
   "BHARTIARTL.NS"; "HINDUNILVR.NS"; "ITC.NS"; "LT.NS"].

(** [df.columns = [col[0] for col in df.columns]] on a MultiIndex. *)
Definition flatten_columns (df : DataFrame) : DataFrame :=
  match columns df with
  | Index _ => df
  | MultiIndex tuples => mkDataFrame (Index (map fst tuples)) (rows df)
  end.

Definition get_stock_data (yf : Market) (symbol : string) : DataFrame :=
  match yf symbol with
  | Raised => empty_frame
  | Returned df => if empty df then empty_frame else flatten_columns df
  end.

(** The guard every endpoint applies before it touches a frame:
    [df.empty or "Close" not in df.columns]. *)
Definition unusable (df : DataFrame) : bool :=
  empty df || negb (has_column "Close" df).

(** ** Derived columns *)

(** [s.shift(periods)]: the first [periods] rows have no predecessor. *)
Definition shift (periods : nat) (s : list Q) : list (option Q) :=
  firstn (List.length s) (repeat None periods ++ map Some s).

(** [s.pct_change(periods)]: [s / s.shift(periods) - 1], NaN where the
    shifted row is missing. *)
Definition pct_change (periods : nat) (s : list Q) : list float :=
  map (fun p => match snd p with
                | Some prev => fsub (fdiv (fst p) prev) 1
                | None => NaN
                end)
      (combine s (shift periods s)).

Definition dropna (s : list float) : list float :=
  filter (fun x => negb (is_nan x)) s.

Definition Qsum (l : list Q) : Q := fold_right Qplus 0 l.

(** [s.rolling(window).mean()]: row [i] is the mean of the [window] cells
    ending at [i], NaN while fewer than [window] cells are available.  pandas
    accumulates this mean in binary64 with a compensated running sum; here it
    is the exact mean, which is the same row by row as to being missing and,
    on positive prices, as to being positive. *)
Definition rolling_mean (window : nat) (s : list Q) : list float :=
  map (fun i => if (i + 1 <? window)%nat then NaN
                else Fin (Qsum (firstn window (skipn (i + 1 - window) s))
                          / inject_Z (Z.of_nat window)))
      (seq 0 (List.length s)).

(** General binary operations on the Python floats of the moving-average
    endpoint. *)
Definition fltb (x y : float) : bool := fleb x y && negb (fleb y x).

(** [a - y] for a finite [a]. *)
Definition fsub_from (a : Q) (y : float) : float :=
  match y with
  | Fin b => Fin (a - b)
  | PInf => NInf
  | NInf => PInf
  | NaN => NaN
  end.

(** Python's [x / y] on floats, in exact arithmetic: a zero divisor raises
    ZeroDivisionError ([None]); everything else follows IEEE 754. *)
Definition py_div (x y : float) : option float :=
  match y with
  | NaN => Some NaN
  | Fin b =>
      match Qcompare b 0 with
      | Eq => None
      | Gt => Some (match x with Fin a => Fin (a / b) | other => other end)
      | Lt => Some (match x with
                    | Fin a => Fin (a / b)
                    | PInf => NInf
                    | NInf => PInf
                    | NaN => NaN
                    end)
      end
  | _ => Some (match x with Fin _ => Fin 0 | _ => NaN end)
  end.

(** ** HTTP responses *)

Inductive Body (A : Type) : Type :=
| Error (msg : string)
| Json (payload : A)
| Unhandled (exception : string).

Arguments Error {A} msg.
Arguments Json {A} payload.
Arguments Unhandled {A} exception.

Definition Response (A : Type) : Type := (Body A * nat)%type.

(** ** ROUTE 2: /api/auto_trends *)

Inductive Trend : Type := fall | rise.

Record TrendEntry : Type := mkTrendEntry {
  trend_symbol : string;
  streak_type : option Trend;
  days : nat;
  trend_last_close : Q;
  trend_as_of : string;
  prices : list Q;
  dates : list string
}.

(** One pass through the body of the inner loop, before the emission test:
    the new values of [streak] and [trend]. *)
Definition advance (change : float) (streak : nat) (trend : option Trend)
  : nat * option Trend :=
  if flt0 change then
    ((match trend with Some fall => streak + 1 | _ => 1 end)%nat, Some fall)
  else if fgt0 change then
    ((match trend with Some rise => streak + 1 | _ => 1 end)%nat, Some rise)
  else (O, None).

(** The inner loop [for i in range(1, len(df))] over the remaining indices
    [indices]; it stops (the [break]) with the first state whose streak is at
    least 3, and yields [None] when the range runs out. *)
Fixpoint scan (change : list float) (indices : list nat)
              (streak : nat) (trend : option Trend)
  : option (nat * option Trend) :=
  match indices with
  | [] => None
  | i :: rest =>
      let (streak', trend') := advance (nth i change NaN) streak trend in
      if (3 <=? streak')%nat then Some (streak', trend')
      else scan change rest streak' trend'
  end.

(** The body of the outer loop for a usable frame: the entry appended to
    [results], if any.  The column [Change] the code stores in the frame is
    only read by the scan, so it is kept as a local value.  [prices] is
    [Series.round(2)] in exact arithmetic, where it is [round2]. *)
Definition trend_entry (symbol : string) (df : DataFrame) : option TrendEntry :=
  let change := pct_change 1 (column "Close" df) in
  match scan change (seq 1 (len df - 1)) 0 None with
  | Some (streak, trend) =>
      let recent := tail 7 df in
      Some (mkTrendEntry symbol trend streak
              (iloc_last (column "Close" df) 0)
              (strftime_ymd (iloc_last (index df) epoch))
              (map round2 (column "Close" recent))
              (map strftime_dmon (index recent)))
  | None => None
  end.

Fixpoint auto_trends_loop (yf : Market) (symbols : list string)
                          (results : list TrendEntry) : list TrendEntry :=
  match symbols with
  | [] => results
  | symbol :: rest =>
      let df := get_stock_data yf symbol in
      if unusable df then auto_trends_loop yf rest results
      else match trend_entry symbol df with
           | Some entry => auto_trends_loop yf rest (results ++ [entry])
           | None => auto_trends_loop yf rest results
           end
  end.

(** The endpoint over an arbitrary ticker list; the service runs it on
    [NIFTY_100]. *)
Definition auto_trends_on (symbols : list string) (yf : Market)
  : Response (list TrendEntry) :=
  match auto_trends_loop yf symbols [] with
  | [] => (Error "No trend data found", 400%nat)
  | results => (Json results, 200%nat)
  end.

Definition auto_trends : Market -> Response (list TrendEntry) :=
  auto_trends_on NIFTY_100.

(** ** Utility: [calculate_momentum_data] *)

Record MomentumRow : Type := mkMomentumRow {
  momentum_symbol : string;
  change_pct : float;
  momentum_last_close : Q;
  momentum_as_of : string
}.

(** The loop body for a usable frame. *)
Definition momentum_row (periods : nat) (symbol : string) (df : DataFrame)
  : option MomentumRow :=
  let change := map (fun x => fmul x 100) (pct_change periods (column "Close" df)) in
  match dropna change with
  | [] => None
  | _ =>
      let last_change := iloc_last change NaN in
      Some (mkMomentumRow symbol (fround2 last_change)
              (iloc_last (column "Close" df) 0)
              (strftime_ymd (iloc_last (index df) epoch)))
  end.

Fixpoint momentum_loop (yf : Market) (periods : nat) (symbol_list : list string)
                       (results : list MomentumRow) : list MomentumRow :=
  match symbol_list with
  | [] => results
  | symbol :: rest =>
      let df := get_stock_data yf symbol in
      if unusable df then momentum_loop yf periods rest results
      else match momentum_row periods symbol df with
           | Some row => momentum_loop yf periods rest (results ++ [row])
           | None => momentum_loop yf periods rest results
           end
  end.

(** [sort_values(by=key, ascending=False)]: descending by key, rows whose
    key is NaN last.  pandas does not fix the order of rows with equal keys;
    here they keep their order, and no property below depends on it. *)
Fixpoint insert_desc {A : Type} (key : A -> float) (x : A) (l : list A) : list A :=
  match l with
  | [] => [x]
  | y :: rest =>
      if fleb (key y) (key x) then x :: y :: rest
      else y :: insert_desc key x rest
  end.

Definition sort_values {A : Type} (key : A -> float) (l : list A) : list A :=
  fold_right (insert_desc key) [] (filter (fun r => negb (is_nan (key r))) l)
  ++ filter (fun r => is_nan (key r)) l.

(** Returns the result table and the error, if any. *)
Definition calculate_momentum_data (yf : Market) (symbol_list : list string)
                                   (periods : nat)
  : list MomentumRow * option string :=
  match momentum_loop yf periods symbol_list [] with
  | [] => ([], Some "No valid momentum data found")
  | results =>
      (* to_numeric leaves floats as they are; dropna(subset=["change_pct"]) *)
      match filter (fun r => negb (is_nan (change_pct r))) results with
      | [] => ([], Some "No numeric momentum values")
      | df_results => (sort_values change_pct df_results, None)
      end
  end.

(** ** ROUTE 3: /api/momentum *)

Definition momentum_stocks_on (symbols : list string) (yf : Market)
  : Response (list MomentumRow) :=
  match calculate_momentum_data yf symbols 5 with
  | (_, Some error) => (Error error, 400%nat)
  | (df_results, None) => (Json df_results, 200%nat)
  end.

Definition momentum_stocks : Market -> Response (list MomentumRow) :=
  momentum_stocks_on NIFTY_100.

(** ** ROUTE 4: /api/high_low_performers *)

Record HighLow : Type := mkHighLow {
  high : list MomentumRow;
  low : list MomentumRow;
  period : string;
  N : nat
}.

Definition high_low_performers_on (symbols : list string) (yf : Market)
  : Response HighLow :=
  let periods := 5%nat in
  match calculate_momentum_data yf symbols periods with
  | (_, Some error) => (Error error, 400%nat)
  | (df_results, None) =>
      let N := if (List.length df_results <? 3)%nat
               then (List.length df_results / 2)%nat else 3%nat in
      let high_performers := firstn N df_results in
      let low_performers := lastn N df_results in
      (Json (mkHighLow high_performers low_performers "5-Day (1 Week)" N), 200%nat)
  end.

Definition high_low_performers : Market -> Response HighLow :=
  high_low_performers_on NIFTY_100.

(** ** ROUTE 5: /api/moving_average *)

Record AverageRow : Type := mkAverageRow {
  average_symbol : string;
  sma_period : nat;
  average_last_close : Q;
  last_sma : float;
  status : string;
  deviation_pct : float;
  average_as_of : string
}.

Inductive Outcome (A : Type) : Type :=
| Skipped
| Appended (row : A)
| Raises (exception : string).

Arguments Skipped {A}.
Arguments Appended {A} row.
Arguments Raises {A} exception.

(** The loop body for a usable frame. *)
Definition average_row (periods : nat) (symbol : string) (df : DataFrame)
  : Outcome AverageRow :=
  let SMA := rolling_mean periods (column "Close" df) in
  match dropna SMA with
  | [] => Skipped
  | _ =>
      let last_close := iloc_last (column "Close" df) 0 in
      let last_sma := iloc_last SMA NaN in
      let status := if fltb last_sma (Fin last_close)
                    then "Above SMA" else "Below SMA" in
      match py_div (fsub_from last_close last_sma) last_sma with
      | None => Raises "ZeroDivisionError"
      | Some ratio =>
          let deviation_pct := fmul ratio 100 in
          Appended (mkAverageRow symbol periods (round2 last_close)
                      (fround2 last_sma) status (fround2 deviation_pct)
                      (strftime_ymd (iloc_last (index df) epoch)))
      end
  end.

(** The loop; an exception leaves it at once ([inl]). *)
Fixpoint moving_average_loop (yf : Market) (symbols : list string)
                             (results : list AverageRow)
  : string + list AverageRow :=
  match symbols with
  | [] => inr results
  | symbol :: rest =>
      let df := get_stock_data yf symbol in
      if unusable df then moving_average_loop yf rest results
      else match average_row 20 symbol df with
           | Skipped => moving_average_loop yf rest results
           | Appended row => moving_average_loop yf rest (results ++ [row])
           | Raises e => inl e
           end
  end.

Definition moving_average_stocks_on (symbols : list string) (yf : Market)
  : Response (list AverageRow) :=
  match moving_average_loop yf symbols [] with
  | inl e => (Unhandled e, 500%nat)
  | inr [] => (Error "No valid Moving Average data found", 400%nat)
  | inr results => (Json (sort_values deviation_pct results), 200%nat)
  end.

Definition moving_average_stocks : Market -> Response (list AverageRow) :=
  moving_average_stocks_on NIFTY_100.

(** ** Vocabulary of the specification *)

(** The daily movement of the closing price. *)
Inductive Move : Type := Down | Up | Flat.

Definition move (prev cur : Q) : Move :=
  match Qcompare cur prev with
  | Lt => Down
  | Gt => Up
  | Eq => Flat
  end.

Fixpoint moves_from (prev : Q) (closes : list Q) : list Move :=
  match closes with
  | [] => []
  | c :: rest => move prev c :: moves_from c rest
  end.

(** One movement per trading day after the first. *)
Definition moves (closes : list Q) : list Move :=
  match closes with
  | [] => []
  | c :: rest => moves_from c rest
  end.

Definition same_direction (a b : Move) : bool :=
  match a, b with
  | Down, Down | Up, Up => true
  | _, _ => false
  end.

Definition trend_of (m : Move) : option Trend :=
  match m with
  | Down => Some fall
  | Up => Some rise
  | Flat => None
  end.

(** Glossary, "Streak": the count of consecutive trading days with
    same-direction price change.  [past] holds the movements seen so far,
    latest first; a flat day belongs to no streak. *)
Fixpoint run_length (m : Move) (past : list Move) : nat :=
  match past with
  | m' :: older => if same_direction m m' then S (run_length m older) else O
  | [] => O
  end.

Definition streak (past : list Move) : nat :=
  match past with
  | [] => O
  | Flat :: _ => O
  | m :: older => S (run_length m older)
  end.

(** The scan as the specification words it: walk the days in order and emit
    the streak and its direction on the first day the streak reaches 3. *)
Fixpoint detect (past coming : list Move) : option (nat * option Trend) :=
  match coming with
  | [] => None
  | m :: later =>
      if (streak (m :: past) =? 3)%nat then Some (streak (m :: past), trend_of m)
      else detect (m :: past) later
  end.

Definition streak_detector (closes : list Q) : option (nat * option Trend) :=
  detect [] (moves closes).

(** The direction a relative change reports, as the scan reads it. *)
Definition direction (change : float) : Move :=
  if flt0 change then Down else if fgt0 change then Up else Flat.

(** The trend on the latest day seen. *)
Definition trend_now (past : list Move) : option Trend :=
  match past with
  | [] => None
  | m :: _ => trend_of m
  end.

(** Three consecutive rises somewhere in a list of movements. *)
Fixpoint three_rises (ms : list Move) : bool :=
  match ms with
  | [] => false
  | m :: rest =>
      match m, rest with
      | Up, Up :: Up :: _ => true
      | _, _ => three_rises rest
      end
  end.

Definition Qpositive (c : Q) : bool :=
  match Qcompare 0 c with Lt => true | _ => false end.

Definition Qnonnegative (c : Q) : bool :=
  match Qcompare 0 c with Gt => false | _ => true end.

(** A ticker fails when the download raises or the frame it returns is
    empty or has no Close column. *)
Definition failed (yf : Market) (symbol : string) : bool :=
  match yf symbol with
  | Raised => true
  | Returned df => empty df || negb (has_column "Close" (flatten_columns df))
  end.

(** The row a ticker contributes to each endpoint, if any. *)
Definition trend_rows (yf : Market) (symbol : string) : list TrendEntry :=
  let df := get_stock_data yf symbol in
  if unusable df then []
  else match trend_entry symbol df with Some e => [e] | None => [] end.

Definition momentum_rows (yf : Market) (periods : nat) (symbol : string)
  : list MomentumRow :=
  let df := get_stock_data yf symbol in
  if unusable df then []
  else match momentum_row periods symbol df with Some r => [r] | None => [] end.

(** Tickers with valid momentum data: a row whose change is a number. *)
Definition valid_momentum (yf : Market) (symbols : list string) : list MomentumRow :=
  filter (fun r => negb (is_nan (change_pct r)))
         (flat_map (momentum_rows yf 5) symbols).

Definition average_outcome (yf : Market) (symbol : string) : Outcome AverageRow :=
  let df := get_stock_data yf symbol in
  if unusable df then Skipped else average_row 20 symbol df.

Definition average_raises (yf : Market) (symbol : string) : bool :=
  match average_outcome yf symbol with Raises _ => true | _ => false end.

Definition average_rows (yf : Market) (symbol : string) : list AverageRow :=
  match average_outcome yf symbol with Appended r => [r] | _ => [] end.

Definition replies_error {A : Type} (r : Response A) : Prop :=
  exists msg, r = (Error msg, 400%nat).

Definition replies_json {A : Type} (r : Response A) : Prop :=
  exists payload, r = (Json payload, 200%nat).

(** The arithmetic mean of a non-empty list. *)
Definition mean (l : list Q) : Q := Qsum l / inject_Z (Z.of_nat (List.length l)).

(** Rows whose key is a number, and the descending order of a key. *)
Definition numeric {A : Type} (key : A -> float) (r : A) : bool :=
  negb (is_nan (key r)).

Definition descending {A : Type} (key : A -> float) (a b : A) : Prop :=
  fle (key b) (key a).

(** Descending order of [change_pct]. *)
Definition ranked (l : list MomentumRow) : Prop :=
  StronglySorted (descending change_pct) l.

(** A ticker has valid momentum data when its download did not fail, its
    frame has at least six closes, and the five-day change of its last close
    is a number: the last close and the close five trading days earlier are
    not both zero. *)
Definition has_momentum (yf : Market) (s : string) : bool :=
  let closes := column "Close" (get_stock_data yf s) in
  let n := List.length closes in
  negb (failed yf s)
  && (6 <=? n)%nat
  && negb (Qeq_bool (nth (n - 1) closes 0) 0 && Qeq_bool (nth (n - 6) closes 0) 0).

(** The entries of a trend response. *)
Definition entries (r : Response (list TrendEntry)) : list TrendEntry :=
  match r with
  | (Json results, _) => results
  | _ => []
  end.

(** ** Sample markets *)

Definition daily (closes : list Q) : DataFrame :=
  mkDataFrame (Index ["Close"; "High"; "Low"; "Open"; "Volume"])
    (map (fun p => (mkTimestamp 2025 10 (S (fst p)),
                    [snd p; snd p + 1; snd p - 1; snd p; 1000]))
         (combine (seq 0 (List.length closes)) closes)).

Definition daily_multi (symbol : string) (closes : list Q) : DataFrame :=
  mkDataFrame (MultiIndex [("Close", symbol); ("High", symbol); ("Low", symbol);
                           ("Open", symbol); ("Volume", symbol)])
              (rows (daily closes)).

(** Every ticker trades at 100 for 25 days. *)
Definition flat_market : Market :=
  fun _ => Returned (daily (repeat 100 25)).

(** Three rises, then three declines. *)
Definition rise_then_fall : list Q := [1; 2; 3; 4; 3; 2; 1].

Definition fall_then_rise : list Q := [9; 8; 7; 6; 7; 8; 9].

(** Three tickers with data, seven failed downloads. *)
Definition three_ticker_market : Market :=
  fun s =>
    if String.eqb s "RELIANCE.NS" then Returned (daily [100; 100; 100; 100; 100; 101])
    else if String.eqb s "TCS.NS" then Returned (daily_multi s [100; 100; 100; 100; 100; 103])
    else if String.eqb s "INFY.NS" then Returned (daily [100; 100; 100; 100; 100; 102])
    else Raised.

Definition one_ticker_market : Market :=
  fun s =>
    if String.eqb s "ITC.NS" then Returned (daily [100; 100; 100; 100; 100; 101])
    else Raised.

Definition two_ticker_market : Market :=
  fun s =>
    if String.eqb s "ITC.NS" then Returned (daily [100; 100; 100; 100; 100; 101])
    else if String.eqb s "LT.NS" then Returned (daily [100; 100; 100; 100; 100; 99])
    else Returned empty_frame.

(** All ten tickers trade; the price climbs by one each day from a level
    that depends on the ticker, with TCS.NS falling three days in a row. *)
Definition climb (start : nat) (n : nat) : list Q :=
  map (fun i => inject_Z (Z.of_nat (start + i))) (seq 0 n).

Definition full_market : Market :=
  fun s =>
    if String.eqb s "TCS.NS"
    then Returned (daily (climb 50 18 ++ [66; 65; 64; 63]))
    else if String.eqb s "SBIN.NS" then Raised
    else Returned (daily (climb (10 * String.length s) 22)).

(** A degenerate market in which every close is zero. *)
Definition zero_market : Market :=
  fun _ => Returned (daily (repeat 0 20)).

(** Four and five tickers with data, the others failed. *)
Definition four_ticker_market : Market :=
  fun s =>
    if String.eqb s "LT.NS" then Returned (daily [100; 100; 100; 100; 100; 104])
    else three_ticker_market s.

Definition five_ticker_market : Market :=
  fun s =>
    if String.eqb s "ITC.NS" then Returned (daily [100; 100; 100; 100; 100; 105])
    else four_ticker_market s.

(** ** The momentum table in binary64

    The values the momentum table reports are binary64 numbers: pandas
    divides, subtracts and multiplies element by element in IEEE 754 double
    precision and Python's [round] works on the double it is given.  This
    module embeds [calculate_momentum_data] over Rocq's primitive floats,
    which are those numbers with those operations; the frames are the ones
    above, each cell read as the double nearest to it (exactly, for a cell
    that is a double).  The rational definitions above are the same code in
    exact arithmetic; they serve where only signs, missing values and the
    order of rows matter. *)

Module Binary64.

Abbreviation number := PrimFloat.float.

(** The double nearest to a rational (ties to even). *)
Definition nearest (q : Q) : number :=
  FloatOps.SF2Prim
    (match Qnum q with
     | Z0 => SpecFloat.S754_zero false
     | Zpos n =>
         SpecFloat.SFdiv FloatOps.prec FloatOps.emax
           (SpecFloat.S754_finite false n 0) (SpecFloat.S754_finite false (Qden q) 0)
     | Zneg n =>
         SpecFloat.SFdiv FloatOps.prec FloatOps.emax
           (SpecFloat.S754_finite true n 0) (SpecFloat.S754_finite false (Qden q) 0)
     end).

(** The exact value [m * 2^e] of a finite double's magnitude. *)
Definition magnitude (m : positive) (e : Z) : Q :=
  match e with
  | Z0 => inject_Z (Zpos m)
  | Zpos p => inject_Z (Zpos m * 2 ^ Zpos p)
  | Zneg p => Zpos m # (2 ^ p)
  end.

(** Python's [round(x, 2)] on a float: the decimal with two digits nearest
    to the exact value of [x] (ties to the even digit), then the double
    nearest to that decimal; infinities and NaN come back unchanged. *)
Definition round (x : number) : number :=
  match FloatOps.Prim2SF x with
  | SpecFloat.S754_finite negative m e =>
      let r := nearest (round_half_even (magnitude m e * 100) # 100) in
      if negative then PrimFloat.opp r else r
  | _ => x
  end.

Definition one : number := nearest 1.
Definition hundred : number := nearest 100.

(** [df["Close"]] as doubles. *)
Definition closes (df : DataFrame) : list number :=
  map nearest (column "Close" df).

(** [s.shift(periods)] *)
Definition shift (periods : nat) (s : list number) : list (option number) :=
  firstn (List.length s) (repeat None periods ++ map Some s).

(** [s.pct_change(periods)]: [s / s.shift(periods) - 1], element by element. *)
Definition pct_change (periods : nat) (s : list number) : list number :=
  map (fun p => match snd p with
                | Some prev => PrimFloat.sub (PrimFloat.div (fst p) prev) one
                | None => PrimFloat.nan
                end)
      (combine s (shift periods s)).

Definition dropna (s : list number) : list number :=
  filter (fun x => negb (PrimFloat.is_nan x)) s.

Record MomentumRow : Type := mkMomentumRow {
  symbol : string;
  change_pct : number;
  last_close : number;
  as_of : string
}.

(** The loop body of [calculate_momentum_data] for a usable frame. *)
Definition momentum_row (periods : nat) (ticker : string) (df : DataFrame)
  : option MomentumRow :=
  let change := map (fun x => PrimFloat.mul x hundred)
                    (pct_change periods (closes df)) in
  match dropna change with
  | [] => None
  | _ =>
      let last_change := iloc_last change PrimFloat.nan in
      Some (mkMomentumRow ticker (round last_change)
              (iloc_last (closes df) PrimFloat.nan)
              (strftime_ymd (iloc_last (index df) epoch)))
  end.

Fixpoint momentum_loop (yf : Market) (periods : nat) (symbol_list : list string)
                       (results : list MomentumRow) : list MomentumRow :=
  match symbol_list with
  | [] => results
  | ticker :: rest =>
      let df := get_stock_data yf ticker in
      if unusable df then momentum_loop yf periods rest results
      else match momentum_row periods ticker df with
           | Some row => momentum_loop yf periods rest (results ++ [row])
           | None => momentum_loop yf periods rest results
           end
  end.

(** [sort_values(by="change_pct", ascending=False)], NaN keys last. *)
Fixpoint insert_desc (x : MomentumRow) (l : list MomentumRow) : list MomentumRow :=
  match l with
  | [] => [x]
  | y :: rest =>
      if PrimFloat.leb (change_pct y) (change_pct x) then x :: y :: rest
      else y :: insert_desc x rest
  end.

Definition sort_values (l : list MomentumRow) : list MomentumRow :=
  fold_right insert_desc []
             (filter (fun r => negb (PrimFloat.is_nan (change_pct r))) l)
  ++ filter (fun r => PrimFloat.is_nan (change_pct r)) l.

Definition calculate_momentum_data (yf : Market) (symbol_list : list string)
                                   (periods : nat)
  : list MomentumRow * option string :=
  match momentum_loop yf periods symbol_list [] with
  | [] => ([], Some "No valid momentum data found")
  | results =>
      match filter (fun r => negb (PrimFloat.is_nan (change_pct r))) results with
      | [] => ([], Some "No numeric momentum values")
      | df_results => (sort_values df_results, None)
      end
  end.

End Binary64.

(** One ticker moves by one tick in 20000 after five flat days. *)
Definition tick_market : Market :=
  fun s =>
    if String.eqb s "TCS.NS"
    then Returned (daily [20000; 20000; 20000; 20000; 20000; 20001])
    else Raised.

(** * Properties *)

(** ** Rational comparisons *)

Lemma Qcompare_Lt_iff (a b : Q) : (a ?= b) = Lt <-> a < b.
Proof. symmetry. apply Qlt_alt. Qed.

Lemma Qcompare_Gt_iff (a b : Q) : (a ?= b) = Gt <-> b < a.
Proof. symmetry. apply Qgt_alt. Qed.

Lemma Qcompare_Eq_iff (a b : Q) : (a ?= b) = Eq <-> a == b.
Proof. symmetry. apply Qeq_alt. Qed.

Lemma Qpositive_lt (c : Q) : Qpositive c = true <-> 0 < c.
Proof.
  unfold Qpositive. destruct (0 ?= c) eqn:E.
  - apply Qcompare_Eq_iff in E. split; [discriminate|].
    intros H. rewrite <- E in H. exfalso. apply (Qlt_irrefl 0 H).
  - apply Qcompare_Lt_iff in E. tauto.
  - apply Qcompare_Gt_iff in E. split; [discriminate|].
    intros H. exfalso. apply (Qlt_irrefl 0). apply (Qlt_trans _ c); assumption.
Qed.

Lemma Qnonnegative_le (c : Q) : Qnonnegative c = true <-> 0 <= c.
Proof.
  unfold Qnonnegative. destruct (0 ?= c) eqn:E.
  - apply Qcompare_Eq_iff in E. split; [|reflexivity].
    intros _. rewrite <- E. apply Qle_refl.
  - apply Qcompare_Lt_iff in E. split; [|reflexivity].
    intros _. apply Qlt_le_weak. assumption.
  - apply Qcompare_Gt_iff in E. split; [discriminate|].
    intros H. exfalso. apply (Qlt_irrefl c). apply (Qlt_le_trans _ 0); assumption.
Qed.

(** For a positive divisor the sign of [cur / prev - 1] is the sign of
    [cur - prev]. *)
Lemma ratio_compare (prev cur : Q) :
  0 < prev -> (cur / prev - 1 ?= 0) = (cur ?= prev).
Proof.
  intros Hp.
  assert (Hne : ~ prev == 0).
  { intros E. rewrite E in Hp. apply (Qlt_irrefl 0 Hp). }
  assert (Hd : cur / prev - 1 == (cur - prev) / prev) by (field; assumption).
  destruct (cur ?= prev) eqn:E.
  - apply Qcompare_Eq_iff in E. apply Qcompare_Eq_iff.
    rewrite Hd, E. field. assumption.
  - apply Qcompare_Lt_iff in E. apply Qcompare_Lt_iff.
    rewrite Hd. apply Qlt_shift_div_r; [assumption|].
    rewrite Qmult_0_l. apply (Qplus_lt_l _ _ prev). ring_simplify. assumption.
  - apply Qcompare_Gt_iff in E. apply Qcompare_Gt_iff.
    rewrite Hd. apply Qlt_shift_div_l; [assumption|].
    rewrite Qmult_0_l. apply (Qplus_lt_l _ _ prev). ring_simplify. assumption.
Qed.

(** After a non-negative price the sign of the relative change is the
    movement of the close. *)
Lemma direction_move (prev cur : Q) :
  0 <= prev -> direction (fsub (fdiv cur prev) 1) = move prev cur.
Proof.
  intros Hp. unfold fdiv, move.
  destruct (prev ?= 0) eqn:E.
  - apply Qcompare_Eq_iff in E.
    assert (R : (cur ?= prev) = (cur ?= 0)) by (rewrite E; reflexivity).
    rewrite R. destruct (cur ?= 0); reflexivity.
  - apply Qcompare_Lt_iff in E. exfalso.
    apply (Qlt_irrefl prev). apply (Qlt_le_trans _ 0); assumption.
  - apply Qcompare_Gt_iff in E.
    unfold direction, fsub, flt0, fgt0. rewrite (ratio_compare prev cur E).
    destruct (cur ?= prev); reflexivity.
Qed.

(** ** Derived columns, row by row *)

Lemma length_shift (p : nat) (s : list Q) : List.length (shift p s) = List.length s.
Proof.
  unfold shift. rewrite length_firstn, length_app, repeat_length, length_map. lia.
Qed.

Lemma nth_shift (p : nat) (s : list Q) (i : nat) :
  (i < List.length s)%nat ->
  nth i (shift p s) None = if (i <? p)%nat then None else Some (nth (i - p) s 0).
Proof.
  intros Hi. unfold shift. rewrite nth_firstn.
  destruct (Nat.ltb_spec i (List.length s)) as [_|]; [|lia].
  destruct (Nat.ltb_spec i p) as [Hlt|Hge].
  - rewrite app_nth1 by (rewrite repeat_length; assumption).
    apply nth_repeat.
  - rewrite app_nth2 by (rewrite repeat_length; assumption).
    rewrite repeat_length.
    rewrite (nth_indep _ None (Some 0)) by (rewrite length_map; lia).
    apply (map_nth Some).
Qed.

Lemma length_pct_change (p : nat) (s : list Q) :
  List.length (pct_change p s) = List.length s.
Proof.
  unfold pct_change. rewrite length_map, length_combine, length_shift. lia.
Qed.

(** Row [i] of [pct_change]. *)
Lemma nth_pct_change (p : nat) (s : list Q) (i : nat) :
  (i < List.length s)%nat ->
  nth i (pct_change p s) NaN =
  if (i <? p)%nat then NaN else fsub (fdiv (nth i s 0) (nth (i - p) s 0)) 1.
Proof.
  intros Hi. unfold pct_change.
  set (f := fun q : Q * option Q => match snd q with
                                    | Some prev => fsub (fdiv (fst q) prev) 1
                                    | None => NaN
                                    end).
  change NaN with (f (0, None)) at 1.
  rewrite map_nth, combine_nth by (symmetry; apply length_shift).
  unfold f. simpl. rewrite (nth_shift p s i Hi).
  destruct (i <? p)%nat; reflexivity.
Qed.

Lemma length_moves_from (c : Q) (rest : list Q) :
  List.length (moves_from c rest) = List.length rest.
Proof.
  revert c. induction rest as [|d rest IH]; intros c; simpl; [reflexivity|].
  rewrite IH. reflexivity.
Qed.

Lemma nth_moves_from (c : Q) (rest : list Q) (i : nat) :
  (i < List.length rest)%nat ->
  nth i (moves_from c rest) Flat = move (nth i (c :: rest) 0) (nth (S i) (c :: rest) 0).
Proof.
  revert c i. induction rest as [|d rest IH]; intros c i Hi; simpl in Hi; [lia|].
  destruct i as [|i]; [reflexivity|].
  simpl moves_from. cbn [nth]. rewrite IH by lia. reflexivity.
Qed.

(** ** The streak counter *)

Lemma streak_step (m : Move) (past : list Move) :
  (streak (m :: past) <= S (streak past))%nat.
Proof.
  destruct m; simpl; try lia;
    destruct past as [|[| |] older]; simpl; lia.
Qed.

(** One pass of the loop body keeps the counter equal to the streak of the
    days seen. *)
Lemma advance_streak (x : float) (past : list Move) :
  advance x (streak past) (trend_now past) =
  (streak (direction x :: past), trend_of (direction x)).
Proof.
  unfold advance, direction.
  destruct (flt0 x).
  - destruct past as [|[| |] older]; simpl; try reflexivity.
    rewrite Nat.add_1_r. reflexivity.
  - destruct (fgt0 x).
    + destruct past as [|[| |] older]; simpl; try reflexivity.
      rewrite Nat.add_1_r. reflexivity.
    + reflexivity.
Qed.

(** The loop over the indices [k, k+1, ...] is the detector on the
    directions those rows report, as long as the streak is below 3 when the
    loop is entered. *)
Lemma scan_detect (change : list float) (coming : list Move) :
  forall (k : nat) (past : list Move),
    (forall i, (i < List.length coming)%nat ->
               direction (nth (k + i) change NaN) = nth i coming Flat) ->
    (streak past <= 2)%nat ->
    scan change (seq k (List.length coming)) (streak past) (trend_now past)
    = detect past coming.
Proof.
  induction coming as [|m later IH]; intros k past Hdir Hlow; [reflexivity|].
  simpl List.length. simpl seq. cbn [scan detect].
  rewrite advance_streak.
  assert (Hm : direction (nth k change NaN) = m).
  { specialize (Hdir O). simpl in Hdir. rewrite Nat.add_0_r in Hdir.
    apply Hdir. lia. }
  rewrite Hm.
  pose proof (streak_step m past) as Hstep.
  destruct (Nat.leb_spec 3 (streak (m :: past))) as [Hge|Hlt].
  - assert (E : streak (m :: past) = 3%nat) by lia.
    rewrite E. reflexivity.
  - destruct (Nat.eqb_spec (streak (m :: past)) 3) as [E|_]; [lia|].
    change (trend_of m) with (trend_now (m :: past)).
    apply IH; [|lia].
    intros i Hi. specialize (Hdir (S i)). simpl in Hdir.
    rewrite <- Hdir by lia. f_equal. f_equal. lia.
Qed.

Lemma forallb_nth (f : Q -> bool) (l : list Q) (i : nat) :
  forallb f l = true -> (i < List.length l)%nat -> f (nth i l 0) = true.
Proof.
  intros H Hi. rewrite forallb_forall in H. apply H. apply nth_In. assumption.
Qed.

(** On non-negative closes the inner loop is the detector of the
    specification. *)
Lemma scan_closes (closes : list Q) :
  forallb Qnonnegative closes = true ->
  scan (pct_change 1 closes) (seq 1 (List.length closes - 1)) 0 None
  = streak_detector closes.
Proof.
  intros Hnn. destruct closes as [|c0 rest]; [reflexivity|].
  unfold streak_detector, moves.
  replace (List.length (c0 :: rest) - 1)%nat with (List.length (moves_from c0 rest))
    by (rewrite length_moves_from; simpl; lia).
  apply (scan_detect (pct_change 1 (c0 :: rest)) (moves_from c0 rest) 1 []);
    [|simpl; lia].
  intros i Hi. rewrite length_moves_from in Hi.
  rewrite nth_pct_change by (simpl; lia).
  change (1 + i)%nat with (S i). change (S i <? 1)%nat with false. cbv iota.
  replace (S i - 1)%nat with i by lia.
  rewrite nth_moves_from by assumption.
  apply direction_move. apply Qnonnegative_le.
  apply forallb_nth; [assumption | simpl; lia].
Qed.

Lemma length_column (name : string) (df : DataFrame) :
  has_column name df = true -> List.length (column name df) = len df.
Proof.
  unfold has_column, column, len.
  destruct (column_position name df); [|discriminate].
  intros _. apply length_map.
Qed.

(** The per-ticker body in terms of the detector. *)
Lemma trend_entry_detector (symbol : string) (df : DataFrame) :
  has_column "Close" df = true ->
  forallb Qnonnegative (column "Close" df) = true ->
  trend_entry symbol df =
  match streak_detector (column "Close" df) with
  | Some (counter, trend) =>
      Some (mkTrendEntry symbol trend counter
              (iloc_last (column "Close" df) 0)
              (strftime_ymd (iloc_last (index df) epoch))
              (map round2 (column "Close" (tail 7 df)))
              (map strftime_dmon (index (tail 7 df))))
  | None => None
  end.
Proof.
  intros Hcol Hnn. unfold trend_entry.
  rewrite <- (length_column "Close" df Hcol).
  rewrite (scan_closes _ Hnn).
  destruct (streak_detector (column "Close" df)) as [[counter trend]|]; reflexivity.
Qed.

(** C1.  For a frame whose closes are non-negative, the per-ticker scan of
    /api/auto_trends is the algorithm of the specification: the counter is
    the number of consecutive days on which the close moved in the same
    direction (one more on each such day, restarted by a change of direction,
    zero after a flat day), and an entry carrying that counter and direction
    is emitted on the first day the counter reaches 3. *)
Theorem trend_scan_follows_spec (symbol : string) (df : DataFrame) :
  has_column "Close" df = true ->
  forallb Qnonnegative (column "Close" df) = true ->
  trend_entry symbol df =
  match streak_detector (column "Close" df) with
  | Some (counter, trend) =>
      Some (mkTrendEntry symbol trend counter
              (iloc_last (column "Close" df) 0)
              (strftime_ymd (iloc_last (index df) epoch))
              (map round2 (column "Close" (tail 7 df)))
              (map strftime_dmon (index (tail 7 df))))
  | None => None
  end.
Proof.
  intros Hcol Hnn. unfold trend_entry.
  rewrite <- (length_column "Close" df Hcol).
  rewrite (scan_closes (column "Close" df) Hnn).
  unfold streak_detector.
  destruct (detect [] (moves (column "Close" df))) as [[counter trend]|];
    reflexivity.
Qed.

Lemma trend_scan_follows_spec_witness :
  trend_entry "TCS.NS" (daily fall_then_rise) =
  Some (mkTrendEntry "TCS.NS" (Some fall) 3 9 "2025-10-07"
          (map round2 fall_then_rise)
          ["01-Oct"; "02-Oct"; "03-Oct"; "04-Oct"; "05-Oct"; "06-Oct"; "07-Oct"]).
Proof.
  rewrite (trend_scan_follows_spec "TCS.NS" (daily fall_then_rise));
    reflexivity.
Defined.

(** ** What the scan can emit *)

Lemma advance_bound (x : float) (s : nat) (t : option Trend) :
  (fst (advance x s t) <= S s)%nat.
Proof.
  unfold advance. destruct (flt0 x); [|destruct (fgt0 x)];
    destruct t as [[|]|]; simpl; lia.
Qed.

(** Entered below 3, the loop can only stop at exactly 3. *)
Lemma scan_emits_three (change : list float) (indices : list nat) :
  forall s t n tr,
    (s <= 2)%nat -> scan change indices s t = Some (n, tr) -> n = 3%nat.
Proof.
  induction indices as [|i rest IH]; intros s t n tr Hs H; [discriminate|].
  cbn [scan] in H.
  pose proof (advance_bound (nth i change NaN) s t) as Hb.
  destruct (advance (nth i change NaN) s t) as [s' t']. simpl in Hb.
  destruct (Nat.leb_spec 3 s') as [Hge|Hlt].
  - injection H as <- _. lia.
  - apply (IH s' t' n tr); [lia | assumption].
Qed.

Lemma trend_entry_days (symbol : string) (df : DataFrame) (e : TrendEntry) :
  trend_entry symbol df = Some e -> days e = 3%nat /\ trend_symbol e = symbol.
Proof.
  unfold trend_entry.
  destruct (scan _ _ 0 None) as [[n tr]|] eqn:E; [|discriminate].
  intros H. injection H as <-. simpl. split; [|reflexivity].
  eapply (scan_emits_three _ _ 0%nat None n tr); [lia | exact E].
Qed.

(** The outer loops append, ticker by ticker, what each ticker contributes. *)
Lemma auto_trends_loop_rows (yf : Market) (symbols : list string) :
  forall results,
    auto_trends_loop yf symbols results
    = (results ++ flat_map (trend_rows yf) symbols)%list.
Proof.
  induction symbols as [|s rest IH]; intros results; simpl.
  - rewrite app_nil_r. reflexivity.
  - unfold trend_rows at 1.
    destruct (unusable (get_stock_data yf s)); [apply IH|].
    destruct (trend_entry s (get_stock_data yf s)); [|apply IH].
    rewrite IH, <- app_assoc. reflexivity.
Qed.

Lemma trend_rows_spec (yf : Market) (s : string) (e : TrendEntry) :
  In e (trend_rows yf s) -> days e = 3%nat /\ trend_symbol e = s.
Proof.
  unfold trend_rows. destruct (unusable _); [intros []|].
  destruct (trend_entry s _) eqn:E; [|intros []].
  intros [<-|[]]. apply (trend_entry_days s _ _ E).
Qed.

Lemma trend_rows_short (yf : Market) (s : string) :
  (List.length (trend_rows yf s) <= 1)%nat.
Proof.
  unfold trend_rows. destruct (unusable _); [simpl; lia|].
  destruct (trend_entry s _); simpl; lia.
Qed.

Lemma trend_symbols_NoDup (yf : Market) (symbols : list string) :
  NoDup symbols -> NoDup (map trend_symbol (flat_map (trend_rows yf) symbols)).
Proof.
  induction 1 as [|s rest Hnotin Hnd IH]; simpl; [constructor|].
  rewrite map_app.
  pose proof (trend_rows_short yf s) as Hshort.
  pose proof (trend_rows_spec yf s) as Hspec.
  destruct (trend_rows yf s) as [|e [|e' more]]; simpl in *; [assumption| |lia].
  constructor; [|assumption].
  destruct (Hspec e (or_introl eq_refl)) as [_ ->].
  intros Hin. apply Hnotin.
  apply in_map_iff in Hin. destruct Hin as [e' [Hsym Hin]].
  apply in_flat_map in Hin. destruct Hin as [s' [Hs' He']].
  apply trend_rows_spec in He'. destruct He' as [_ Heq].
  congruence.
Qed.

Lemma NIFTY_100_NoDup : NoDup NIFTY_100.
Proof.
  unfold NIFTY_100.
  repeat (constructor; [simpl; intuition discriminate|]). constructor.
Qed.

Lemma entries_auto_trends (symbols : list string) (yf : Market) :
  entries (auto_trends_on symbols yf) = flat_map (trend_rows yf) symbols.
Proof.
  unfold auto_trends_on. rewrite auto_trends_loop_rows. simpl.
  destruct (flat_map (trend_rows yf) symbols); reflexivity.
Qed.

(** C9.  Whatever the market returns, every entry of /api/auto_trends has
    [days] equal to 3, and no two entries carry the same ticker: each ticker
    contributes at most one entry, the one of the first day its counter
    reaches 3. *)
Theorem auto_trends_one_three_day_entry (yf : Market) :
  Forall (fun e => days e = 3%nat) (entries (auto_trends yf))
  /\ NoDup (map trend_symbol (entries (auto_trends yf)))
  /\ Forall (fun s => (List.length (trend_rows yf s) <= 1)%nat) NIFTY_100
  /\ entries (auto_trends yf) = flat_map (trend_rows yf) NIFTY_100.
Proof.
  unfold auto_trends. rewrite entries_auto_trends. repeat split.
  - apply Forall_forall. intros e He.
    apply in_flat_map in He. destruct He as [s [_ He]].
    apply (trend_rows_spec yf s e He).
  - apply trend_symbols_NoDup, NIFTY_100_NoDup.
  - apply Forall_forall. intros s _. apply trend_rows_short.
Qed.

(** ** Three consecutive declines *)

Lemma run_length_streak (m : Move) (past : list Move) :
  (run_length m past <= streak past)%nat.
Proof.
  destruct past as [|m' older]; simpl; [lia|].
  destruct m, m'; simpl; lia.
Qed.

Lemma three_rises_app (l l' : list Move) :
  three_rises (l ++ Up :: Up :: Up :: l')%list = true.
Proof.
  induction l as [|m rest IH]; [reflexivity|].
  simpl app. cbn [three_rises]. rewrite IH.
  destruct m; try reflexivity.
  destruct (rest ++ Up :: Up :: Up :: l')%list as [|[| |] [|[| |] ?]]; reflexivity.
Qed.

(** A streak of 3 means the three latest days moved the same way. *)
Lemma streak_three (m : Move) (past : list Move) :
  streak (m :: past) = 3%nat ->
  m <> Flat /\ exists older, past = m :: m :: older.
Proof.
  destruct m; simpl; try discriminate;
    (destruct past as [|[| |] [|[| |] older]]; simpl; try discriminate;
     intros _; split; [discriminate | eexists; reflexivity]).
Qed.

(** Three declines in a row end the scan with a falling streak of 3, unless
    three rises in a row came first. *)
Lemma detect_three_declines (before after : list Move) :
  forall past,
    (streak past <= 2)%nat ->
    three_rises (rev past ++ before)%list = false ->
    detect past (before ++ Down :: Down :: Down :: after)%list = Some (3%nat, Some fall).
Proof.
  induction before as [|m later IH]; intros past Hlow Hfree.
  - cbn [app detect]. cbn [streak run_length same_direction].
    pose proof (run_length_streak Down past) as Hr.
    destruct (run_length Down past) as [|[|[|r]]]; try reflexivity. lia.
  - cbn [app detect].
    pose proof (streak_step m past) as Hstep.
    destruct (Nat.eqb_spec (streak (m :: past)) 3) as [E|Hne].
    + destruct (streak_three m past E) as [Hflat [older ->]].
      destruct m; [rewrite E; reflexivity | | contradiction].
      exfalso. simpl rev in Hfree. rewrite <- !app_assoc in Hfree.
      simpl app in Hfree. rewrite three_rises_app in Hfree. discriminate.
    + apply IH; [lia|].
      simpl rev. rewrite <- app_assoc. exact Hfree.
Qed.

(** C2, as stated, fails: a sequence can contain three consecutive declines
    and still be reported as a rise, because the scan stops at the first
    streak of 3.  Here the closes 1, 2, 3, 4, 3, 2, 1 end with three
    declines, yet the entry says [rise]. *)
Lemma rise_then_fall_reported_as_rise :
  moves rise_then_fall = [Up; Up; Up; Down; Down; Down]
  /\ exists e, trend_entry "TCS.NS" (daily rise_then_fall) = Some e
               /\ days e = 3%nat
               /\ streak_type e = Some rise
               /\ streak_type e <> Some fall.
Proof.
  split; [reflexivity|].
  eexists. split; [reflexivity|].
  repeat split; simpl; discriminate.
Qed.

(** C2, amended.  For every sequence of non-negative closes that contains
    three consecutive daily declines with no three consecutive rises before
    them, the streak detector reports an entry with streak 3 and trend
    [fall]. *)
Theorem three_declines_reported (symbol : string) (df : DataFrame)
        (before after : list Move) :
  has_column "Close" df = true ->
  forallb Qnonnegative (column "Close" df) = true ->
  moves (column "Close" df) = (before ++ [Down; Down; Down] ++ after)%list ->
  three_rises before = false ->
  exists e, trend_entry symbol df = Some e
            /\ days e = 3%nat /\ streak_type e = Some fall.
Proof.
  intros Hcol Hnn Hmoves Hfree.
  rewrite (trend_entry_detector symbol df Hcol Hnn).
  unfold streak_detector. rewrite Hmoves.
  change ([Down; Down; Down] ++ after)%list with (Down :: Down :: Down :: after).
  rewrite (detect_three_declines before after []); [| simpl; lia | exact Hfree].
  eexists. split; [reflexivity|]. split; reflexivity.
Qed.

Lemma three_declines_reported_witness :
  exists e, trend_entry "INFY.NS" (daily [5; 6; 6; 7; 6; 5; 4; 9]) = Some e
            /\ days e = 3%nat /\ streak_type e = Some fall.
Proof.
  apply (three_declines_reported "INFY.NS" (daily [5; 6; 6; 7; 6; 5; 4; 9])
           [Up; Flat; Up] [Up]); reflexivity.
Defined.

(** ** Failed tickers *)

Lemma empty_flatten_columns (df : DataFrame) :
  empty (flatten_columns df) = empty df.
Proof.
  destruct df as [[names|tuples] table]; [reflexivity|].
  unfold flatten_columns, empty, len. simpl.
  rewrite length_map. reflexivity.
Qed.

(** A failed ticker is one whose frame the endpoints' guard rejects. *)
Lemma failed_unusable (yf : Market) (s : string) :
  unusable (get_stock_data yf s) = failed yf s.
Proof.
  unfold failed, get_stock_data, unusable.
  destruct (yf s) as [|df]; [reflexivity|].
  destruct (empty df) eqn:E; [reflexivity|].
  rewrite empty_flatten_columns, E. reflexivity.
Qed.

Section DroppedTicker.

Variable yf : Market.
Variable s : string.
Hypothesis Hfailed : failed yf s = true.
Variable after : list string.

Lemma auto_trends_loop_drop (before : list string) :
  forall results,
    auto_trends_loop yf (before ++ s :: after) results
    = auto_trends_loop yf (before ++ after) results.
Proof.
  induction before as [|b before IH]; intros results; simpl.
  - rewrite failed_unusable, Hfailed. reflexivity.
  - destruct (unusable (get_stock_data yf b)); [apply IH|].
    destruct (trend_entry b (get_stock_data yf b)); apply IH.
Qed.

Lemma momentum_loop_drop (periods : nat) (before : list string) :
  forall results,
    momentum_loop yf periods (before ++ s :: after) results
    = momentum_loop yf periods (before ++ after) results.
Proof.
  induction before as [|b before IH]; intros results; simpl.
  - rewrite failed_unusable, Hfailed. reflexivity.
  - destruct (unusable (get_stock_data yf b)); [apply IH|].
    destruct (momentum_row periods b (get_stock_data yf b)); apply IH.
Qed.

Lemma moving_average_loop_drop (before : list string) :
  forall results,
    moving_average_loop yf (before ++ s :: after) results
    = moving_average_loop yf (before ++ after) results.
Proof.
  induction before as [|b before IH]; intros results; simpl.
  - rewrite failed_unusable, Hfailed. reflexivity.
  - destruct (unusable (get_stock_data yf b)); [apply IH|].
    destruct (average_row 20 b (get_stock_data yf b));
      [apply IH | apply IH | reflexivity].
Qed.

End DroppedTicker.

(** C4.  A ticker that fails (its download raises, or its frame is empty or
    has no Close column) is dropped and nothing else changes: every endpoint
    answers exactly as it would if that ticker were not in the list, so the
    rows of all other tickers are the same. *)
Theorem failed_ticker_only_dropped (yf : Market) (s : string)
        (before after : list string) :
  failed yf s = true ->
  auto_trends_on (before ++ s :: after) yf = auto_trends_on (before ++ after) yf
  /\ momentum_stocks_on (before ++ s :: after) yf
     = momentum_stocks_on (before ++ after) yf
  /\ high_low_performers_on (before ++ s :: after) yf
     = high_low_performers_on (before ++ after) yf
  /\ moving_average_stocks_on (before ++ s :: after) yf
     = moving_average_stocks_on (before ++ after) yf.
Proof.
  intros Hfailed.
  unfold auto_trends_on, momentum_stocks_on, high_low_performers_on,
    moving_average_stocks_on, calculate_momentum_data.
  rewrite (auto_trends_loop_drop yf s Hfailed after before).
  rewrite (momentum_loop_drop yf s Hfailed after 5 before).
  rewrite (moving_average_loop_drop yf s Hfailed after before).
  repeat split; reflexivity.
Qed.

Lemma failed_ticker_only_dropped_witness :
  auto_trends_on NIFTY_100 full_market
  = auto_trends_on (remove string_dec "SBIN.NS" NIFTY_100) full_market
  /\ momentum_stocks_on NIFTY_100 full_market
     = momentum_stocks_on (remove string_dec "SBIN.NS" NIFTY_100) full_market
  /\ high_low_performers_on NIFTY_100 full_market
     = high_low_performers_on (remove string_dec "SBIN.NS" NIFTY_100) full_market
  /\ moving_average_stocks_on NIFTY_100 full_market
     = moving_average_stocks_on (remove string_dec "SBIN.NS" NIFTY_100) full_market.
Proof.
  apply (failed_ticker_only_dropped full_market "SBIN.NS"
           ["RELIANCE.NS"; "TCS.NS"; "INFY.NS"; "HDFCBANK.NS"; "ICICIBANK.NS"]
           ["BHARTIARTL.NS"; "HINDUNILVR.NS"; "ITC.NS"; "LT.NS"]).
  reflexivity.
Defined.

(** ** The order on floats and [sort_values] *)

Lemma fleb_total (x y : float) :
  is_nan x = false -> is_nan y = false -> fleb x y = false -> fleb y x = true.
Proof.
  destruct x as [a| | |], y as [b| | |]; simpl; try discriminate; try reflexivity.
  intros _ _. rewrite <- (Qcompare_antisym a b).
  destruct (a ?= b); simpl; try discriminate; reflexivity.
Qed.

Lemma fle_trans (x y z : float) : fle x y -> fle y z -> fle x z.
Proof.
  unfold fle.
  destruct x as [a| | |], y as [b| | |], z as [c| | |]; simpl;
    try discriminate; try reflexivity.
  intros Hab Hbc.
  assert (Lab : a <= b).
  { apply Qle_alt. intros E. rewrite E in Hab. discriminate. }
  assert (Lbc : b <= c).
  { apply Qle_alt. intros E. rewrite E in Hbc. discriminate. }
  assert (Lac : a <= c) by (apply (Qle_trans _ b); assumption).
  destruct (a ?= c) eqn:Eac; [reflexivity | reflexivity | ].
  exfalso. apply (proj1 (Qle_alt a c) Lac). exact Eac.
Qed.

Lemma fle_refl (x : float) : is_nan x = false -> fle x x.
Proof.
  unfold fle. destruct x as [a| | |]; simpl; try discriminate; try reflexivity.
  intros _. rewrite (proj2 (Qcompare_Eq_iff a a) (Qeq_refl a)). reflexivity.
Qed.

Section SortValues.

Context {A : Type}.
Variable key : A -> float.

Lemma insert_desc_perm (x : A) (l : list A) :
  Permutation (insert_desc key x l) (x :: l).
Proof.
  induction l as [|y rest IH]; simpl; [reflexivity|].
  destruct (fleb (key y) (key x)); [reflexivity|].
  rewrite IH. apply perm_swap.
Qed.

Lemma insertion_perm (l : list A) :
  Permutation (fold_right (insert_desc key) [] l) l.
Proof.
  induction l as [|x rest IH]; simpl; [reflexivity|].
  rewrite insert_desc_perm, IH. reflexivity.
Qed.

Lemma filter_split_perm (l : list A) :
  Permutation (filter (numeric key) l ++ filter (fun r => is_nan (key r)) l) l.
Proof.
  induction l as [|x rest IH]; simpl; [reflexivity|].
  unfold numeric at 1. destruct (is_nan (key x)); simpl.
  - rewrite <- Permutation_middle. constructor. exact IH.
  - constructor. exact IH.
Qed.

(** [sort_values] only reorders. *)
Lemma sort_values_perm (l : list A) : Permutation (sort_values key l) l.
Proof.
  unfold sort_values. rewrite insertion_perm. apply filter_split_perm.
Qed.

Lemma insert_desc_sorted (x : A) (l : list A) :
  numeric key x = true -> Forall (fun r => numeric key r = true) l ->
  StronglySorted (descending key) l ->
  StronglySorted (descending key) (insert_desc key x l).
Proof.
  intros Hx Hl Hs. induction Hs as [|y rest Hrest IH Hy]; simpl.
  - repeat constructor.
  - inversion Hl as [|? ? Hny Hnrest]; subst.
    destruct (fleb (key y) (key x)) eqn:E.
    + constructor; [constructor; assumption|].
      constructor; [exact E|].
      apply Forall_forall. intros z Hz.
      rewrite Forall_forall in Hy. unfold descending.
      apply (fle_trans _ (key y)); [apply Hy; assumption | exact E].
    + constructor; [apply IH; assumption|].
      apply Forall_forall. intros z Hz.
      apply (Permutation_in _ (insert_desc_perm x rest)) in Hz.
      destruct Hz as [<-|Hz].
      * apply fleb_total; [| |exact E].
        -- unfold numeric in Hny. destruct (is_nan (key y)); [discriminate|reflexivity].
        -- unfold numeric in Hx. destruct (is_nan (key x)); [discriminate|reflexivity].
      * rewrite Forall_forall in Hy. apply Hy. assumption.
Qed.

Lemma insertion_sorted (l : list A) :
  Forall (fun r => numeric key r = true) l ->
  StronglySorted (descending key) (fold_right (insert_desc key) [] l).
Proof.
  induction 1 as [|x rest Hx Hrest IH]; simpl; [constructor|].
  apply insert_desc_sorted; [assumption | | assumption].
  apply Forall_forall. intros z Hz.
  apply (Permutation_in _ (insertion_perm rest)) in Hz.
  rewrite Forall_forall in Hrest. apply Hrest. assumption.
Qed.

(** On rows whose keys are all numbers, [sort_values] is descending. *)
Lemma sort_values_sorted (l : list A) :
  Forall (fun r => numeric key r = true) l ->
  StronglySorted (descending key) (sort_values key l).
Proof.
  intros Hl. unfold sort_values.
  assert (Hnone : filter (fun r => is_nan (key r)) l = []).
  { induction Hl as [|x rest Hx _ IH]; simpl; [reflexivity|].
    unfold numeric in Hx. destruct (is_nan (key x)); [discriminate | exact IH]. }
  rewrite Hnone, app_nil_r.
  apply insertion_sorted. apply Forall_forall. intros z Hz.
  apply filter_In in Hz. destruct Hz as [_ Hz]. exact Hz.
Qed.

End SortValues.

(** ** The momentum table *)

Lemma momentum_loop_rows (yf : Market) (periods : nat) (symbols : list string) :
  forall results,
    momentum_loop yf periods symbols results
    = (results ++ flat_map (momentum_rows yf periods) symbols)%list.
Proof.
  induction symbols as [|s rest IH]; intros results; simpl.
  - rewrite app_nil_r. reflexivity.
  - unfold momentum_rows at 1.
    destruct (unusable (get_stock_data yf s)); [apply IH|].
    destruct (momentum_row periods s (get_stock_data yf s)); [|apply IH].
    rewrite IH, <- app_assoc. reflexivity.
Qed.

(** The table is the ranking of the tickers with valid momentum data; the
    error is raised exactly when there are none. *)
Lemma calculate_momentum_data_valid (yf : Market) (symbols : list string) :
  (valid_momentum yf symbols = []
   /\ exists msg, calculate_momentum_data yf symbols 5 = ([], Some msg))
  \/ (valid_momentum yf symbols <> []
      /\ calculate_momentum_data yf symbols 5
         = (sort_values change_pct (valid_momentum yf symbols), None)).
Proof.
  unfold calculate_momentum_data, valid_momentum.
  rewrite momentum_loop_rows. simpl app.
  destruct (flat_map (momentum_rows yf 5) symbols) as [|r rows] eqn:E.
  - left. split; [reflexivity | eexists; reflexivity].
  - destruct (filter (fun r0 => negb (is_nan (change_pct r0))) (r :: rows))
      as [|v valid] eqn:F.
    + left. split; [reflexivity | eexists; reflexivity].
    + right. split; [discriminate | reflexivity].
Qed.

Lemma valid_momentum_numeric (yf : Market) (symbols : list string) :
  Forall (fun r => negb (is_nan (change_pct r)) = true) (valid_momentum yf symbols).
Proof.
  apply Forall_forall. intros r Hr. unfold valid_momentum in Hr.
  apply filter_In in Hr. apply Hr.
Qed.

Lemma ranking_ranked (yf : Market) (symbols : list string) :
  ranked (sort_values change_pct (valid_momentum yf symbols)).
Proof.
  apply (sort_values_sorted change_pct). apply valid_momentum_numeric.
Qed.

Lemma momentum_rows_symbol (yf : Market) (periods : nat) (s : string) (r : MomentumRow) :
  In r (momentum_rows yf periods s) -> momentum_symbol r = s.
Proof.
  unfold momentum_rows. destruct (unusable _); [intros []|].
  unfold momentum_row. destruct (dropna _); [intros []|].
  intros [<-|[]]. reflexivity.
Qed.

Lemma momentum_rows_short (yf : Market) (periods : nat) (s : string) :
  (List.length (momentum_rows yf periods s) <= 1)%nat.
Proof.
  unfold momentum_rows. destruct (unusable _); [simpl; lia|].
  destruct (momentum_row periods s _); simpl; lia.
Qed.

Lemma valid_momentum_symbol (yf : Market) (symbols : list string) (x : string) :
  In x (map momentum_symbol (valid_momentum yf symbols)) -> In x symbols.
Proof.
  intros Hin. apply in_map_iff in Hin. destruct Hin as [r [<- Hr]].
  unfold valid_momentum in Hr. apply filter_In in Hr. destruct Hr as [Hr _].
  apply in_flat_map in Hr. destruct Hr as [s [Hs Hr]].
  rewrite (momentum_rows_symbol _ _ _ _ Hr). exact Hs.
Qed.

(** One row per ticker. *)
Lemma valid_momentum_NoDup (yf : Market) (symbols : list string) :
  NoDup symbols -> NoDup (map momentum_symbol (valid_momentum yf symbols)).
Proof.
  induction 1 as [|s rest Hnotin Hnd IH]; [constructor|].
  unfold valid_momentum. simpl flat_map. rewrite filter_app, map_app.
  fold (valid_momentum yf rest).
  pose proof (momentum_rows_short yf 5 s) as Hshort.
  pose proof (momentum_rows_symbol yf 5 s) as Hsym.
  destruct (momentum_rows yf 5 s) as [|r [|r' more]]; simpl in *;
    [assumption| |lia].
  destruct (negb (is_nan (change_pct r))); simpl; [|assumption].
  constructor; [|assumption].
  rewrite (Hsym r (or_introl eq_refl)).
  intros Hin. apply Hnotin. apply (valid_momentum_symbol yf rest s Hin).
Qed.

(** ** High and low performers *)

Lemma sorted_app_between {A : Type} (R : A -> A -> Prop) (l1 l2 : list A) :
  StronglySorted R (l1 ++ l2) ->
  forall a b, In a l1 -> In b l2 -> R a b.
Proof.
  induction l1 as [|x rest IH]; intros Hs a b Ha Hb; [destruct Ha|].
  simpl in Hs. inversion Hs as [|? ? Hrest Hx]; subst.
  destruct Ha as [<-|Ha].
  - rewrite Forall_forall in Hx. apply Hx. apply in_or_app. right. exact Hb.
  - apply IH; assumption.
Qed.

Lemma length_lastn {A : Type} (n : nat) (l : list A) :
  List.length (lastn n l) = Nat.min n (List.length l).
Proof. unfold lastn. rewrite length_skipn. lia. Qed.

Lemma In_skipn_more {A : Type} (n m : nat) (l : list A) (x : A) :
  (n <= m)%nat -> In x (skipn m l) -> In x (skipn n l).
Proof.
  intros Hnm Hin.
  replace m with ((m - n) + n)%nat in Hin by lia.
  rewrite <- skipn_skipn in Hin.
  rewrite <- (firstn_skipn (m - n) (skipn n l)).
  apply in_or_app. right. exact Hin.
Qed.

(** The answer of the endpoint when some ticker has valid momentum data. *)
Lemma high_low_performers_valid (yf : Market) :
  valid_momentum yf NIFTY_100 <> [] ->
  let ranking := sort_values change_pct (valid_momentum yf NIFTY_100) in
  let n := if (List.length ranking <? 3)%nat
           then (List.length ranking / 2)%nat else 3%nat in
  high_low_performers yf
  = (Json (mkHighLow (firstn n ranking) (lastn n ranking) "5-Day (1 Week)" n),
     200%nat).
Proof.
  intros Hsome. unfold high_low_performers, high_low_performers_on.
  destruct (calculate_momentum_data_valid yf NIFTY_100)
    as [[Hnone _] | [_ ->]]; [contradiction|].
  reflexivity.
Qed.

Lemma length_ranking (yf : Market) (symbols : list string) :
  List.length (sort_values change_pct (valid_momentum yf symbols))
  = List.length (valid_momentum yf symbols).
Proof. apply Permutation_length, sort_values_perm. Qed.

Lemma In_firstn_more {A : Type} (n k : nat) (l : list A) (x : A) :
  (n <= k)%nat -> In x (firstn n l) -> In x (firstn k l).
Proof.
  intros Hnk Hin.
  replace (firstn n l) with (firstn n (firstn k l)) in Hin
    by (rewrite firstn_firstn; f_equal; lia).
  rewrite <- (firstn_skipn n (firstn k l)). apply in_or_app. left. exact Hin.
Qed.

Lemma sorted_suffix {A : Type} (R : A -> A -> Prop) (l1 l2 : list A) :
  StronglySorted R (l1 ++ l2) -> StronglySorted R l2.
Proof.
  induction l1 as [|x rest IH]; intros Hs; [exact Hs|].
  simpl in Hs. inversion Hs; subst. apply IH. assumption.
Qed.

(** In a sorted list, a prefix and a suffix that share at most one position
    are still in order. *)
Lemma sorted_overlap_one {A : Type} (R : A -> A -> Prop) (l : list A) (n m : nat) :
  StronglySorted R l -> (forall a, In a l -> R a a) -> (n <= S m)%nat ->
  forall h x, In h (firstn n l) -> In x (skipn m l) -> R h x.
Proof.
  intros Hs Hrefl Hnm h x Hh Hx.
  destruct (skipn m l) as [|y rest] eqn:E; [destruct Hx|].
  assert (Hm : (m < List.length l)%nat).
  { apply (f_equal (@List.length A)) in E. rewrite length_skipn in E.
    simpl in E. lia. }
  assert (Hl : l = (firstn m l ++ y :: rest)%list)
    by (rewrite <- E; symmetry; apply firstn_skipn).
  apply (In_firstn_more n (S m)) in Hh; [|exact Hnm].
  rewrite Hl in Hh at 1. rewrite firstn_app, length_firstn in Hh.
  replace (S m - Nat.min m (List.length l))%nat with 1%nat in Hh by lia.
  rewrite firstn_firstn in Hh.
  replace (Nat.min (S m) m) with m in Hh by lia.
  cbn [firstn] in Hh.
  assert (Hy : In y l) by (rewrite Hl; apply in_or_app; right; left; reflexivity).
  rewrite Hl in Hs.
  apply in_app_or in Hh. destruct Hh as [Hh|[<-|[]]].
  - apply (sorted_app_between R _ _ Hs h x Hh Hx).
  - destruct Hx as [<-|Hx]; [apply Hrefl; exact Hy|].
    apply sorted_suffix in Hs. inversion Hs as [|? ? _ Hall]; subst.
    rewrite Forall_forall in Hall. apply Hall. exact Hx.
Qed.

(** C8, as stated, fails: with three or with four valid tickers the endpoint
    keeps N = 3, the two lists share more than one record, and a record of
    [high] lies below a record of [low]. *)
Lemma overlapping_high_low :
  (List.length (valid_momentum three_ticker_market NIFTY_100) = 3%nat
   /\ exists r, high_low_performers three_ticker_market = (Json r, 200%nat)
      /\ N r = 3%nat
      /\ high r = low r
      /\ exists h l, In h (high r) /\ In l (low r)
                     /\ change_pct h = Fin (round2 1)
                     /\ change_pct l = Fin (round2 3)
                     /\ fleb (change_pct l) (change_pct h) = false)
  /\ (List.length (valid_momentum four_ticker_market NIFTY_100) = 4%nat
      /\ exists r, high_low_performers four_ticker_market = (Json r, 200%nat)
         /\ N r = 3%nat
         /\ exists h l, In h (high r) /\ In l (low r)
                        /\ change_pct h = Fin (round2 2)
                        /\ change_pct l = Fin (round2 3)
                        /\ fleb (change_pct l) (change_pct h) = false).
Proof.
  split.
  - split; [reflexivity|].
    eexists. split; [reflexivity|]. split; [reflexivity|]. split; [reflexivity|].
    exists (mkMomentumRow "RELIANCE.NS" (Fin (round2 1)) 101 "2025-10-06").
    exists (mkMomentumRow "TCS.NS" (Fin (round2 3)) 103 "2025-10-06").
    split; [right; right; left; reflexivity|].
    split; [left; reflexivity|].
    repeat split.
  - split; [reflexivity|].
    eexists. split; [reflexivity|]. split; [reflexivity|].
    exists (mkMomentumRow "INFY.NS" (Fin (round2 2)) 102 "2025-10-06").
    exists (mkMomentumRow "TCS.NS" (Fin (round2 3)) 103 "2025-10-06").
    split; [right; right; left; reflexivity|].
    split; [left; reflexivity|].
    repeat split.
Qed.

(** C8, amended.  Whenever some ticker has valid data the endpoint answers
    200, [high] holds the N records with the largest [change_pct] and [low]
    the N with the smallest: the valid records split into [high] and others
    none of which exceeds a record of [high], and into [low] and others none
    of which is below a record of [low]; N is 3 whenever at least 3 tickers
    are valid.  Unless exactly 3 or 4 tickers are valid, every record of
    [high] has [change_pct] greater than or equal to every record of [low]. *)
Theorem top_and_bottom_performers (yf : Market) :
  (1 <= List.length (valid_momentum yf NIFTY_100))%nat ->
  exists r others_below others_above,
    high_low_performers yf = (Json r, 200%nat)
    /\ ((3 <= List.length (valid_momentum yf NIFTY_100))%nat -> N r = 3%nat)
    /\ List.length (high r) = N r /\ List.length (low r) = N r
    /\ Permutation (high r ++ others_below) (valid_momentum yf NIFTY_100)
    /\ (forall h x, In h (high r) -> In x others_below ->
                    fle (change_pct x) (change_pct h))
    /\ Permutation (others_above ++ low r) (valid_momentum yf NIFTY_100)
    /\ (forall l x, In l (low r) -> In x others_above ->
                    fle (change_pct l) (change_pct x))
    /\ (List.length (valid_momentum yf NIFTY_100) <> 3%nat ->
        List.length (valid_momentum yf NIFTY_100) <> 4%nat ->
        forall h l, In h (high r) -> In l (low r) ->
                    fle (change_pct l) (change_pct h)).
Proof.
  intros Hk.
  assert (Hsome : valid_momentum yf NIFTY_100 <> []).
  { intros E. rewrite E in Hk. simpl in Hk. lia. }
  pose proof (high_low_performers_valid yf Hsome) as Hreply. cbv zeta in Hreply.
  pose proof (ranking_ranked yf NIFTY_100) as Hranked.
  pose proof (sort_values_perm change_pct (valid_momentum yf NIFTY_100)) as Hperm.
  pose proof (length_ranking yf NIFTY_100) as Hlen.
  assert (Hrefl : forall a,
             In a (sort_values change_pct (valid_momentum yf NIFTY_100)) ->
             descending change_pct a a).
  { intros a Ha. apply (Permutation_in _ Hperm) in Ha.
    pose proof (valid_momentum_numeric yf NIFTY_100) as Hnum.
    rewrite Forall_forall in Hnum. specialize (Hnum a Ha).
    apply fle_refl. destruct (is_nan (change_pct a)); [discriminate | reflexivity]. }
  set (ranking := sort_values change_pct (valid_momentum yf NIFTY_100)) in *.
  set (k := List.length (valid_momentum yf NIFTY_100)) in *.
  rewrite Hlen in Hreply.
  set (n := if (k <? 3)%nat then (k / 2)%nat else 3%nat) in *.
  assert (Hhalf : (2 * (k / 2) <= k)%nat) by (apply Nat.Div0.mul_div_le).
  assert (Hn : (n <= k)%nat).
  { unfold n. destruct (Nat.ltb_spec k 3); lia. }
  exists (mkHighLow (firstn n ranking) (lastn n ranking) "5-Day (1 Week)" n).
  exists (skipn n ranking), (firstn (List.length ranking - n) ranking).
  cbn [high low N].
  split; [exact Hreply|].
  split; [intros H3; unfold n; destruct (Nat.ltb_spec k 3); [lia | reflexivity]|].
  split; [rewrite length_firstn; lia|].
  split; [rewrite length_lastn; lia|].
  split; [rewrite firstn_skipn; exact Hperm|].
  split.
  { intros h x Hh Hx. unfold ranked in Hranked.
    rewrite <- (firstn_skipn n ranking) in Hranked.
    apply (sorted_app_between _ _ _ Hranked h x Hh Hx). }
  split; [unfold lastn; rewrite firstn_skipn; exact Hperm|].
  split.
  { intros l x Hl Hx. unfold ranked in Hranked.
    rewrite <- (firstn_skipn (List.length ranking - n) ranking) in Hranked.
    apply (sorted_app_between _ _ _ Hranked x l Hx Hl). }
  intros H3 H4 h l Hh Hl. unfold lastn in Hl. rewrite Hlen in Hl.
  apply (sorted_overlap_one (descending change_pct) ranking n (k - n)
           Hranked Hrefl); [|exact Hh | exact Hl].
  unfold n. destruct (Nat.ltb_spec k 3); lia.
Qed.

Lemma top_and_bottom_performers_witness :
  exists r others_below others_above,
    high_low_performers five_ticker_market = (Json r, 200%nat)
    /\ ((3 <= List.length (valid_momentum five_ticker_market NIFTY_100))%nat ->
        N r = 3%nat)
    /\ List.length (high r) = N r /\ List.length (low r) = N r
    /\ Permutation (high r ++ others_below)
                   (valid_momentum five_ticker_market NIFTY_100)
    /\ (forall h x, In h (high r) -> In x others_below ->
                    fle (change_pct x) (change_pct h))
    /\ Permutation (others_above ++ low r)
                   (valid_momentum five_ticker_market NIFTY_100)
    /\ (forall l x, In l (low r) -> In x others_above ->
                    fle (change_pct l) (change_pct x))
    /\ (List.length (valid_momentum five_ticker_market NIFTY_100) <> 3%nat ->
        List.length (valid_momentum five_ticker_market NIFTY_100) <> 4%nat ->
        forall h l, In h (high r) -> In l (low r) ->
                    fle (change_pct l) (change_pct h)).
Proof.
  apply (top_and_bottom_performers five_ticker_market).
  vm_compute. lia.
Defined.

(** C10.  When the number k of tickers with valid momentum data is 1 or 2,
    the endpoint answers 200 with N = k / 2 (rounded down) and exactly N
    records in each of [high] and [low]; with a single valid ticker both
    lists are empty. *)
Theorem few_valid_tickers (yf : Market) :
  (1 <= List.length (valid_momentum yf NIFTY_100))%nat ->
  (List.length (valid_momentum yf NIFTY_100) < 3)%nat ->
  exists r,
    high_low_performers yf = (Json r, 200%nat)
    /\ N r = (List.length (valid_momentum yf NIFTY_100) / 2)%nat
    /\ List.length (high r) = N r
    /\ List.length (low r) = N r
    /\ (List.length (valid_momentum yf NIFTY_100) = 1%nat ->
        high r = [] /\ low r = []).
Proof.
  intros H1 H3.
  assert (Hsome : valid_momentum yf NIFTY_100 <> []).
  { intros E. rewrite E in H1. simpl in H1. lia. }
  pose proof (high_low_performers_valid yf Hsome) as Hreply. cbv zeta in Hreply.
  pose proof (length_ranking yf NIFTY_100) as Hlen.
  set (ranking := sort_values change_pct (valid_momentum yf NIFTY_100)) in *.
  set (k := List.length (valid_momentum yf NIFTY_100)) in *.
  destruct (Nat.ltb_spec (List.length ranking) 3) as [_|Hge]; [|lia].
  rewrite Hlen in Hreply.
  exists (mkHighLow (firstn (k / 2) ranking) (lastn (k / 2) ranking)
            "5-Day (1 Week)" (k / 2)).
  cbn [high low N].
  assert (Hhalf : (k / 2 <= k)%nat) by (apply Nat.Div0.div_le_upper_bound; lia).
  split; [exact Hreply|]. split; [reflexivity|].
  split; [rewrite length_firstn; lia|].
  split; [rewrite length_lastn; lia|].
  intros E. rewrite E. change (1 / 2)%nat with 0%nat.
  split; [reflexivity|].
  unfold lastn. rewrite Nat.sub_0_r. apply skipn_all.
Qed.

Lemma few_valid_tickers_witness :
  exists r,
    high_low_performers one_ticker_market = (Json r, 200%nat)
    /\ N r = (List.length (valid_momentum one_ticker_market NIFTY_100) / 2)%nat
    /\ List.length (high r) = N r
    /\ List.length (low r) = N r
    /\ (List.length (valid_momentum one_ticker_market NIFTY_100) = 1%nat ->
        high r = [] /\ low r = []).
Proof.
  apply (few_valid_tickers one_ticker_market); vm_compute; lia.
Defined.

(** ** Error replies *)

Lemma moving_average_loop_rows (yf : Market) (symbols : list string) :
  forall results,
    existsb (average_raises yf) symbols = false ->
    moving_average_loop yf symbols results
    = inr (results ++ flat_map (average_rows yf) symbols)%list.
Proof.
  induction symbols as [|s rest IH]; intros results Hquiet; simpl.
  - rewrite app_nil_r. reflexivity.
  - simpl in Hquiet. apply orb_false_iff in Hquiet. destruct Hquiet as [Hs Hrest].
    unfold average_rows at 1. unfold average_raises in Hs.
    unfold average_outcome in *.
    destruct (unusable (get_stock_data yf s)); [apply IH; exact Hrest|].
    destruct (average_row 20 s (get_stock_data yf s)); [| |discriminate].
    + apply IH; exact Hrest.
    + rewrite IH by exact Hrest. rewrite <- app_assoc. reflexivity.
Qed.

Lemma failed_no_rows (yf : Market) (symbols : list string) :
  forallb (failed yf) symbols = true ->
  flat_map (trend_rows yf) symbols = []
  /\ valid_momentum yf symbols = []
  /\ flat_map (average_rows yf) symbols = []
  /\ existsb (average_raises yf) symbols = false.
Proof.
  unfold valid_momentum.
  induction symbols as [|s rest IH]; intros Hall; simpl; [repeat split|].
  simpl in Hall. apply andb_true_iff in Hall. destruct Hall as [Hs Hrest].
  destruct (IH Hrest) as [Ht [Hm [Ha Hr]]].
  unfold trend_rows at 1, momentum_rows at 1, average_rows at 1,
    average_raises at 1, average_outcome.
  rewrite failed_unusable, Hs. simpl. repeat split; assumption.
Qed.

Lemma auto_trends_reply (yf : Market) :
  (flat_map (trend_rows yf) NIFTY_100 = [] -> replies_error (auto_trends yf))
  /\ (flat_map (trend_rows yf) NIFTY_100 <> [] ->
      auto_trends yf = (Json (flat_map (trend_rows yf) NIFTY_100), 200%nat)).
Proof.
  unfold auto_trends, auto_trends_on. rewrite auto_trends_loop_rows, app_nil_l.
  destruct (flat_map (trend_rows yf) NIFTY_100) as [|e rest].
  - split; [intros _; eexists; reflexivity | intros H; contradiction].
  - split; [discriminate | reflexivity].
Qed.

Lemma momentum_reply (yf : Market) :
  (valid_momentum yf NIFTY_100 = [] ->
   replies_error (momentum_stocks yf) /\ replies_error (high_low_performers yf))
  /\ (valid_momentum yf NIFTY_100 <> [] ->
      momentum_stocks yf
      = (Json (sort_values change_pct (valid_momentum yf NIFTY_100)), 200%nat)
      /\ replies_json (high_low_performers yf)).
Proof.
  unfold momentum_stocks, momentum_stocks_on, high_low_performers,
    high_low_performers_on.
  destruct (calculate_momentum_data_valid yf NIFTY_100)
    as [[Hnone [msg ->]] | [Hsome ->]].
  - split; [|intros H; contradiction].
    intros _. split; exists msg; reflexivity.
  - split; [intros H; contradiction|].
    intros _. split; [reflexivity | eexists; reflexivity].
Qed.

Lemma moving_average_reply (yf : Market) :
  existsb (average_raises yf) NIFTY_100 = false ->
  (flat_map (average_rows yf) NIFTY_100 = [] ->
   replies_error (moving_average_stocks yf))
  /\ (flat_map (average_rows yf) NIFTY_100 <> [] ->
      moving_average_stocks yf
      = (Json (sort_values deviation_pct (flat_map (average_rows yf) NIFTY_100)),
         200%nat)).
Proof.
  intros Hquiet. unfold moving_average_stocks, moving_average_stocks_on.
  rewrite (moving_average_loop_rows yf NIFTY_100 [] Hquiet), app_nil_l.
  destruct (flat_map (average_rows yf) NIFTY_100) as [|r rest].
  - split; [intros _; eexists; reflexivity | intros H; contradiction].
  - split; [discriminate | reflexivity].
Qed.

(** C3, as stated, fails for /api/auto_trends: every ticker of the flat
    market yields valid data (the momentum and moving-average endpoints answer
    200 on it), yet no ticker has a streak and the endpoint answers 400. *)
Lemma valid_data_without_trend :
  forallb (fun s => negb (failed flat_market s)) NIFTY_100 = true
  /\ auto_trends flat_market = (Error "No trend data found", 400%nat)
  /\ replies_json (momentum_stocks flat_market)
  /\ replies_json (moving_average_stocks flat_market)
  /\ ~ replies_json (auto_trends flat_market).
Proof.
  split; [reflexivity|]. split; [reflexivity|].
  split; [eexists; vm_compute; reflexivity|].
  split; [eexists; vm_compute; reflexivity|].
  intros [payload H]. vm_compute in H. discriminate H.
Qed.

(** C3, amended.  Every endpoint answers 400 with an error message when no
    ticker contributes a row to it, in particular when all tickers failed,
    and 200 with the computed results otherwise.  A ticker with valid data
    contributes no row to /api/auto_trends when it has no 3-day streak, and
    none to the momentum endpoints when its change is not a number.  For
    /api/moving_average this holds when no ticker's 20-day average is zero;
    the division by a zero average is not part of the statement. *)
Theorem error_without_rows (yf : Market) :
  (forallb (failed yf) NIFTY_100 = true ->
   replies_error (auto_trends yf) /\ replies_error (momentum_stocks yf)
   /\ replies_error (high_low_performers yf)
   /\ replies_error (moving_average_stocks yf))
  /\ (flat_map (trend_rows yf) NIFTY_100 = [] -> replies_error (auto_trends yf))
  /\ (flat_map (trend_rows yf) NIFTY_100 <> [] ->
      auto_trends yf = (Json (flat_map (trend_rows yf) NIFTY_100), 200%nat))
  /\ (valid_momentum yf NIFTY_100 = [] ->
      replies_error (momentum_stocks yf) /\ replies_error (high_low_performers yf))
  /\ (valid_momentum yf NIFTY_100 <> [] ->
      momentum_stocks yf
      = (Json (sort_values change_pct (valid_momentum yf NIFTY_100)), 200%nat)
      /\ replies_json (high_low_performers yf))
  /\ (existsb (average_raises yf) NIFTY_100 = false ->
      (flat_map (average_rows yf) NIFTY_100 = [] ->
       replies_error (moving_average_stocks yf))
      /\ (flat_map (average_rows yf) NIFTY_100 <> [] ->
          moving_average_stocks yf
          = (Json (sort_values deviation_pct
                     (flat_map (average_rows yf) NIFTY_100)), 200%nat))).
Proof.
  destruct (auto_trends_reply yf) as [Ht0 Ht1].
  destruct (momentum_reply yf) as [Hm0 Hm1].
  split.
  { intros Hall.
    destruct (failed_no_rows yf NIFTY_100 Hall) as [Ht [Hm [Ha Hr]]].
    destruct (moving_average_reply yf Hr) as [Ha0 _].
    destruct (Hm0 Hm) as [Hm0a Hm0b].
    repeat split; auto. }
  split; [exact Ht0|]. split; [exact Ht1|].
  split; [exact Hm0|]. split; [exact Hm1|].
  exact (moving_average_reply yf).
Qed.

Lemma error_without_rows_witness :
  (replies_error (auto_trends (fun _ => Raised))
   /\ replies_error (momentum_stocks (fun _ => Raised))
   /\ replies_error (high_low_performers (fun _ => Raised))
   /\ replies_error (moving_average_stocks (fun _ => Raised)))
  /\ replies_error (auto_trends flat_market)
  /\ auto_trends full_market
     = (Json (flat_map (trend_rows full_market) NIFTY_100), 200%nat)
  /\ replies_json (high_low_performers full_market)
  /\ moving_average_stocks full_market
     = (Json (sort_values deviation_pct
                (flat_map (average_rows full_market) NIFTY_100)), 200%nat).
Proof.
  split; [apply (error_without_rows (fun _ => Raised)); reflexivity|].
  split; [apply (error_without_rows flat_market); reflexivity|].
  split; [apply (error_without_rows full_market); vm_compute; discriminate|].
  split; [apply (error_without_rows full_market); vm_compute; discriminate|].
  apply (error_without_rows full_market); [reflexivity|].
  vm_compute; discriminate.
Defined.

(** ** Momentum of one ticker *)

Lemma last_is_nth {A : Type} (l : list A) (d : A) :
  last l d = nth (List.length l - 1) l d.
Proof.
  induction l as [|x [|y rest] IH]; [reflexivity | reflexivity |].
  change (last (x :: y :: rest) d) with (last (y :: rest) d).
  rewrite IH. simpl. rewrite Nat.sub_0_r. reflexivity.
Qed.

Lemma fdiv_positive (a b : Q) : 0 < b -> fdiv a b = Fin (a / b).
Proof.
  intros Hb. unfold fdiv.
  rewrite (proj2 (Qcompare_Gt_iff b 0) Hb). reflexivity.
Qed.

Lemma filter_nonempty {A : Type} (f : A -> bool) (l : list A) (x : A) :
  In x l -> f x = true -> filter f l <> [].
Proof.
  intros Hin Hf E.
  assert (Hx : In x (filter f l)) by (apply filter_In; split; assumption).
  rewrite E in Hx. destruct Hx.
Qed.

(** The row of a ticker with at least six positive closes. *)
Lemma momentum_row_positive (symbol : string) (df : DataFrame) :
  let closes := column "Close" df in
  let n := List.length closes in
  (6 <= n)%nat ->
  forallb Qpositive closes = true ->
  momentum_row 5 symbol df =
  Some (mkMomentumRow symbol
          (Fin (round2 ((nth (n - 1) closes 0 / nth (n - 6) closes 0 - 1) * 100)))
          (iloc_last closes 0)
          (strftime_ymd (iloc_last (index df) epoch))).
Proof.
  intros closes n Hn Hpos. unfold momentum_row. fold closes.
  set (change := map (fun x => fmul x 100) (pct_change 5 closes)).
  assert (Hlen : List.length change = n).
  { unfold change. rewrite length_map. apply length_pct_change. }
  assert (Hlast : iloc_last change NaN
                  = Fin ((nth (n - 1) closes 0 / nth (n - 6) closes 0 - 1) * 100)).
  { unfold iloc_last. rewrite last_is_nth, Hlen. unfold change.
    rewrite (map_nth (fun x => fmul x 100) (pct_change 5 closes) NaN (n - 1)
             : nth (n - 1) (map (fun x => fmul x 100) (pct_change 5 closes)) NaN = _).
    rewrite nth_pct_change by (fold n; lia).
    destruct (Nat.ltb_spec (n - 1) 5) as [Hlt|_]; [lia|].
    replace (n - 1 - 5)%nat with (n - 6)%nat by lia.
    rewrite fdiv_positive; [reflexivity|].
    apply Qpositive_lt. apply forallb_nth; [exact Hpos | fold n; lia]. }
  assert (Hin : In (iloc_last change NaN) change).
  { unfold iloc_last. rewrite last_is_nth. apply nth_In. lia. }
  pose proof (filter_nonempty (fun x => negb (is_nan x)) change _ Hin) as Hne.
  rewrite Hlast in Hne. specialize (Hne eq_refl).
  unfold dropna. destruct (filter _ change); [contradiction|].
  rewrite Hlast. reflexivity.
Qed.

(** ** The 20-day average of one ticker *)

Lemma filter_none {A : Type} (f : A -> bool) (l : list A) :
  (forall x, In x l -> f x = false) -> filter f l = [].
Proof.
  induction l as [|x rest IH]; intros H; simpl; [reflexivity|].
  rewrite (H x (or_introl eq_refl)). apply IH.
  intros y Hy. apply H. right. exact Hy.
Qed.

Lemma Qsum_positive (l : list Q) :
  l <> [] -> forallb Qpositive l = true -> 0 < Qsum l.
Proof.
  induction l as [|x rest IH]; intros Hne Hpos; [contradiction|].
  simpl in Hpos. apply andb_true_iff in Hpos. destruct Hpos as [Hx Hrest].
  apply Qpositive_lt in Hx. simpl.
  destruct rest as [|y rest'].
  - simpl. rewrite Qplus_0_r. exact Hx.
  - rewrite <- (Qplus_0_l 0). apply Qplus_lt_le_compat; [exact Hx|].
    apply Qlt_le_weak. apply IH; [discriminate | exact Hrest].
Qed.

Lemma forallb_skipn {A : Type} (f : A -> bool) (k : nat) (l : list A) :
  forallb f l = true -> forallb f (skipn k l) = true.
Proof.
  intros H. apply forallb_forall. intros x Hx.
  rewrite forallb_forall in H. apply H.
  rewrite <- (firstn_skipn k l). apply in_or_app. right. exact Hx.
Qed.

Lemma nth_rolling_mean (window : nat) (s : list Q) (i : nat) :
  (i < List.length s)%nat ->
  nth i (rolling_mean window s) NaN =
  if (i + 1 <? window)%nat then NaN
  else Fin (Qsum (firstn window (skipn (i + 1 - window) s))
            / inject_Z (Z.of_nat window)).
Proof.
  intros Hi. unfold rolling_mean.
  set (F := fun i0 : nat => if (i0 + 1 <? window)%nat then NaN
                            else Fin (Qsum (firstn window (skipn (i0 + 1 - window) s))
                                      / inject_Z (Z.of_nat window))).
  rewrite (nth_indep _ NaN (F O)) by (rewrite length_map, length_seq; exact Hi).
  rewrite map_nth, seq_nth by exact Hi. reflexivity.
Qed.

Lemma mean_positive (l : list Q) :
  l <> [] -> forallb Qpositive l = true -> 0 < mean l.
Proof.
  intros Hne Hpos. unfold mean.
  apply Qlt_shift_div_l.
  - destruct l as [|x rest]; [contradiction|].
    unfold Qlt. simpl. lia.
  - rewrite Qmult_0_l. apply Qsum_positive; assumption.
Qed.

(** The loop body on positive closes, in exact arithmetic: no row before 20
    days of data, and from then on the rounded mean of the last 20 closes and
    the rounded deviation of the last close from that mean. *)
Lemma average_row_positive (symbol : string) (df : DataFrame) :
  let closes := column "Close" df in
  let m := mean (lastn 20 closes) in
  let last_close := iloc_last closes 0 in
  forallb Qpositive closes = true ->
  average_row 20 symbol df =
  if (List.length closes <? 20)%nat then Skipped
  else Appended (mkAverageRow symbol 20 (round2 last_close)
                   (Fin (round2 m))
                   (if fltb (Fin m) (Fin last_close) then "Above SMA" else "Below SMA")
                   (Fin (round2 ((last_close - m) / m * 100)))
                   (strftime_ymd (iloc_last (index df) epoch))).
Proof.
  intros closes m last_close Hpos. unfold average_row. fold closes.
  set (n := List.length closes).
  assert (Hlen : List.length (rolling_mean 20 closes) = n).
  { unfold rolling_mean. rewrite length_map, length_seq. reflexivity. }
  destruct (Nat.ltb_spec n 20) as [Hshort|Hlong].
  - assert (Hnone : dropna (rolling_mean 20 closes) = []).
    { apply filter_none. intros x Hx.
      apply (In_nth _ _ NaN) in Hx. destruct Hx as [i [Hi <-]].
      rewrite Hlen in Hi. rewrite nth_rolling_mean by exact Hi.
      destruct (Nat.ltb_spec (i + 1) 20) as [_|Hge]; [reflexivity | lia]. }
    rewrite Hnone. reflexivity.
  - assert (Hlast : iloc_last (rolling_mean 20 closes) NaN = Fin m).
    { unfold iloc_last. rewrite last_is_nth, Hlen.
      rewrite nth_rolling_mean by (fold n; lia).
      destruct (Nat.ltb_spec (n - 1 + 1) 20) as [Hlt|_]; [lia|].
      replace (n - 1 + 1 - 20)%nat with (n - 20)%nat by lia.
      unfold m, mean, lastn. fold n.
      assert (Hl : List.length (skipn (n - 20) closes) = 20%nat)
        by (rewrite length_skipn; fold n; lia).
      rewrite firstn_all2 by (rewrite Hl; lia).
      rewrite Hl. reflexivity. }
    assert (Hm : 0 < m).
    { unfold m. apply mean_positive.
      - intros E.
        assert (HL : List.length (lastn 20 closes) = 0%nat) by (rewrite E; reflexivity).
        rewrite length_lastn in HL. fold n in HL. lia.
      - unfold lastn. apply forallb_skipn. exact Hpos. }
    assert (Hin : In (iloc_last (rolling_mean 20 closes) NaN) (rolling_mean 20 closes)).
    { unfold iloc_last. rewrite last_is_nth. apply nth_In. lia. }
    pose proof (filter_nonempty (fun x => negb (is_nan x)) _ _ Hin) as Hne.
    rewrite Hlast in Hne. specialize (Hne eq_refl).
    unfold dropna. destruct (filter _ (rolling_mean 20 closes)); [contradiction|].
    rewrite Hlast. fold last_close.
    unfold fsub_from, py_div. rewrite (proj2 (Qcompare_Gt_iff m 0) Hm).
    reflexivity.
Qed.

Lemma existsb_none {A : Type} (f : A -> bool) (l : list A) :
  (forall x, In x l -> f x = false) -> existsb f l = false.
Proof.
  induction l as [|x rest IH]; intros H; simpl; [reflexivity|].
  rewrite (H x (or_introl eq_refl)). apply IH.
  intros y Hy. apply H. right. exact Hy.
Qed.

(** With positive prices the division of the moving-average endpoint never
    raises. *)
Lemma positive_prices_quiet (yf : Market) (symbols : list string) :
  forallb (fun s => forallb Qpositive (column "Close" (get_stock_data yf s)))
          symbols = true ->
  existsb (average_raises yf) symbols = false.
Proof.
  intros Hpos. apply existsb_none. intros s Hs.
  rewrite forallb_forall in Hpos. specialize (Hpos s Hs).
  unfold average_raises, average_outcome.
  destruct (unusable (get_stock_data yf s)); [reflexivity|].
  rewrite (average_row_positive s (get_stock_data yf s) Hpos).
  destruct (_ <? 20)%nat; reflexivity.
Qed.

(** A zero average is the one input on which an endpoint raises: the Python
    division in [moving_average_stocks] fails and the request ends with
    status 500. *)
Remark zero_average_raises :
  moving_average_stocks zero_market = (Unhandled "ZeroDivisionError", 500%nat).
Proof. reflexivity. Qed.

(** * Further properties of the endpoints *)

(** ** What an emitted streak means *)

Lemma advance_trend (x : float) (s : nat) (t : option Trend) :
  snd (advance x s t) = None -> fst (advance x s t) = O.
Proof.
  unfold advance. destruct (flt0 x); [discriminate|].
  destruct (fgt0 x); [discriminate | reflexivity].
Qed.

Lemma scan_trend_set (change : list float) (indices : list nat) :
  forall s t n tr,
    scan change indices s t = Some (n, tr) -> tr = Some fall \/ tr = Some rise.
Proof.
  induction indices as [|i rest IH]; intros s t n tr H; [discriminate|].
  cbn [scan] in H.
  pose proof (advance_trend (nth i change NaN) s t) as Hnone.
  destruct (advance (nth i change NaN) s t) as [s' t']. simpl in Hnone.
  destruct (Nat.leb_spec 3 s') as [Hge|Hlt].
  - injection H as <- <-.
    destruct t' as [[|]|]; [left; reflexivity | right; reflexivity|].
    specialize (Hnone eq_refl). lia.
  - apply (IH s' t' n tr H).
Qed.

(** X2.  The direction of an entry is never missing: the loop emits only while a
    fall or a rise is running. *)
Theorem entries_have_direction (yf : Market) :
  Forall (fun e => streak_type e = Some fall \/ streak_type e = Some rise)
         (entries (auto_trends yf)).
Proof.
  unfold auto_trends. rewrite entries_auto_trends.
  apply Forall_forall. intros e He.
  apply in_flat_map in He. destruct He as [s [_ He]].
  unfold trend_rows in He. destruct (unusable _); [destruct He|].
  unfold trend_entry in He.
  destruct (scan _ _ 0%nat None) as [[n tr]|] eqn:E; [|destruct He].
  destruct He as [<-|[]]. simpl.
  apply (scan_trend_set _ _ _ _ _ _ E).
Qed.

(** An emission of the detector closes a run of three equal movements. *)
Lemma detect_window (coming : list Move) :
  forall past n t,
    detect past coming = Some (n, t) ->
    exists older m later,
      m <> Flat /\ t = trend_of m /\ n = 3%nat
      /\ (rev past ++ coming = older ++ m :: m :: m :: later)%list.
Proof.
  induction coming as [|m later IH]; intros past n t H; [discriminate|].
  cbn [detect] in H.
  destruct (Nat.eqb_spec (streak (m :: past)) 3) as [E|Hne].
  - injection H as <- <-.
    destruct (streak_three m past E) as [Hflat [older ->]].
    exists (rev older), m, later.
    repeat split; [exact Hflat | exact E |].
    simpl rev. rewrite <- !app_assoc. reflexivity.
  - destruct (IH (m :: past) n t H) as [older [m' [later' [Hf [Ht [Hn Heq]]]]]].
    exists older, m', later'. repeat split; try assumption.
    rewrite <- Heq. simpl rev. rewrite <- app_assoc. reflexivity.
Qed.

(** A run of three equal movements never passes unnoticed. *)
Lemma detect_run (m : Move) (before after : list Move) :
  m <> Flat ->
  forall past,
    (streak past <= 2)%nat ->
    detect past (before ++ m :: m :: m :: after)%list <> None.
Proof.
  intros Hm. induction before as [|x later IH]; intros past Hlow.
  - cbn [app detect].
    pose proof (run_length_streak m past) as Hr.
    destruct m; [| |contradiction];
      cbn [streak run_length same_direction];
      (destruct (run_length _ past) as [|[|[|r]]]; [| | |lia]);
      cbn [Nat.eqb]; discriminate.
  - cbn [app detect].
    pose proof (streak_step x past) as Hstep.
    destruct (Nat.eqb_spec (streak (x :: past)) 3) as [E|Hne]; [discriminate|].
    apply IH. lia.
Qed.

(** X3.  Soundness of the scan.  On non-negative closes an emitted entry speaks
    of a streak that is in the data: a [fall] entry means the close fell on
    three consecutive days, a [rise] entry that it rose on three. *)
Theorem entry_has_its_run (symbol : string) (df : DataFrame) (e : TrendEntry) :
  has_column "Close" df = true ->
  forallb Qnonnegative (column "Close" df) = true ->
  trend_entry symbol df = Some e ->
  exists before m after,
    moves (column "Close" df) = (before ++ [m; m; m] ++ after)%list
    /\ streak_type e = trend_of m
    /\ (m = Down \/ m = Up).
Proof.
  intros Hcol Hnn He.
  rewrite (trend_entry_detector symbol df Hcol Hnn) in He.
  unfold streak_detector in He.
  destruct (detect [] (moves (column "Close" df))) as [[n t]|] eqn:E;
    [|discriminate].
  injection He as <-. simpl streak_type.
  destruct (detect_window _ _ _ _ E) as [older [m [later [Hf [Ht [_ Heq]]]]]].
  exists older, m, later. simpl in Heq.
  split; [exact Heq|]. split; [exact Ht|].
  destruct m; [left; reflexivity | right; reflexivity | contradiction].
Qed.

Lemma entry_has_its_run_witness :
  exists before m after,
    moves (column "Close" (daily rise_then_fall))
    = (before ++ [m; m; m] ++ after)%list
    /\ Some rise = trend_of m
    /\ (m = Down \/ m = Up).
Proof.
  apply (entry_has_its_run "ITC.NS" (daily rise_then_fall)
           (mkTrendEntry "ITC.NS" (Some rise) 3 1 "2025-10-07"
              (map round2 rise_then_fall)
              ["01-Oct"; "02-Oct"; "03-Oct"; "04-Oct"; "05-Oct"; "06-Oct"; "07-Oct"]));
    reflexivity.
Defined.

(** X4.  Completeness of the scan.  On non-negative closes a ticker gets no entry
    exactly when its close never moves in the same direction on three
    consecutive days. *)
Theorem no_entry_iff_no_run (symbol : string) (df : DataFrame) :
  has_column "Close" df = true ->
  forallb Qnonnegative (column "Close" df) = true ->
  trend_entry symbol df = None
  <-> ~ exists before m after,
          m <> Flat
          /\ moves (column "Close" df) = (before ++ [m; m; m] ++ after)%list.
Proof.
  intros Hcol Hnn.
  rewrite (trend_entry_detector symbol df Hcol Hnn). unfold streak_detector.
  split.
  - intros Hnone [before [m [after [Hm Heq]]]].
    rewrite Heq in Hnone.
    apply (detect_run m before after Hm [] (Nat.le_0_l 2)).
    change ([m; m; m] ++ after)%list with (m :: m :: m :: after) in Hnone.
    destruct (detect [] (before ++ m :: m :: m :: after))%list as [[n t]|];
      [discriminate | reflexivity].
  - intros Hno.
    destruct (detect [] (moves (column "Close" df))) as [[n t]|] eqn:E;
      [|reflexivity].
    exfalso. apply Hno.
    destruct (detect_window _ _ _ _ E) as [older [m [later [Hf [_ [_ Heq]]]]]].
    exists older, m, later. split; [exact Hf | exact Heq].
Qed.

Lemma no_entry_iff_no_run_witness :
  trend_entry "LT.NS" (daily [5; 6; 7; 7; 8; 9; 8; 7; 8]) = None
  <-> ~ exists before m after,
          m <> Flat
          /\ moves (column "Close" (daily [5; 6; 7; 7; 8; 9; 8; 7; 8]))
             = (before ++ [m; m; m] ++ after)%list.
Proof.
  apply (no_entry_iff_no_run "LT.NS" (daily [5; 6; 7; 7; 8; 9; 8; 7; 8]));
    reflexivity.
Defined.

(** ** The chart data of an entry *)

Lemma scan_needs_three (change : list float) (indices : list nat) :
  forall s t r,
    scan change indices s t = Some r -> (3 <= s + List.length indices)%nat.
Proof.
  induction indices as [|i rest IH]; intros s t r H; [discriminate|].
  cbn [scan] in H.
  pose proof (advance_bound (nth i change NaN) s t) as Hb.
  destruct (advance (nth i change NaN) s t) as [s' t']. simpl in Hb.
  destruct (Nat.leb_spec 3 s') as [Hge|Hlt].
  - simpl. lia.
  - specialize (IH s' t' r H). simpl. lia.
Qed.

Lemma has_column_tail (name : string) (n : nat) (df : DataFrame) :
  has_column name (tail n df) = has_column name df.
Proof. reflexivity. Qed.

Lemma unusable_has_close (df : DataFrame) :
  unusable df = false -> has_column "Close" df = true.
Proof.
  unfold unusable. intros H. apply orb_false_iff in H. destruct H as [_ H].
  destruct (has_column "Close" df); [reflexivity | discriminate].
Qed.

(** X5.  Every entry carries the closes and the dates of the last seven trading
    days of its frame, or of all of them when the frame is shorter; a frame
    that yields an entry has at least four rows, so an entry has between four
    and seven prices, and as many dates. *)
Theorem entries_chart_window (yf : Market) :
  Forall (fun e => (4 <= List.length (prices e) <= 7)%nat
                   /\ List.length (dates e) = List.length (prices e))
         (entries (auto_trends yf)).
Proof.
  unfold auto_trends. rewrite entries_auto_trends.
  apply Forall_forall. intros e He.
  apply in_flat_map in He. destruct He as [s [_ He]].
  unfold trend_rows in He.
  destruct (unusable (get_stock_data yf s)) eqn:Hu; [destruct He|].
  apply unusable_has_close in Hu.
  set (df := get_stock_data yf s) in *.
  unfold trend_entry in He.
  destruct (scan _ _ 0%nat None) as [[n tr]|] eqn:E; [|destruct He].
  destruct He as [<-|[]]. cbn [prices dates].
  apply scan_needs_three in E. rewrite length_seq in E.
  rewrite !length_map.
  rewrite (length_column "Close" (tail 7 df)) by exact Hu.
  unfold index. rewrite length_map.
  unfold len, tail. cbn [rows]. rewrite length_lastn.
  unfold len in E. lia.
Qed.

(** ** Later days do not change a reported streak *)

Lemma scan_ext (c c' : list float) (indices : list nat) :
  (forall i, In i indices -> nth i c NaN = nth i c' NaN) ->
  forall s t, scan c indices s t = scan c' indices s t.
Proof.
  induction indices as [|i rest IH]; intros Hagree s t; [reflexivity|].
  cbn [scan]. rewrite (Hagree i (or_introl eq_refl)).
  destruct (advance (nth i c' NaN) s t) as [s' t'].
  destruct (3 <=? s')%nat; [reflexivity|].
  apply IH. intros j Hj. apply Hagree. right. exact Hj.
Qed.

Lemma scan_app_some (c : list float) (indices more : list nat) :
  forall s t r,
    scan c indices s t = Some r -> scan c (indices ++ more) s t = Some r.
Proof.
  induction indices as [|i rest IH]; intros s t r H; [discriminate|].
  cbn [app scan] in *.
  destruct (advance (nth i c NaN) s t) as [s' t'].
  destruct (3 <=? s')%nat; [exact H|].
  apply IH. exact H.
Qed.

Lemma pct_change_prefix (closes more : list Q) (i : nat) :
  (i < List.length closes)%nat ->
  nth i (pct_change 1 (closes ++ more)) NaN = nth i (pct_change 1 closes) NaN.
Proof.
  intros Hi.
  rewrite !nth_pct_change by (rewrite ?length_app; lia).
  destruct (i <? 1)%nat; [reflexivity|].
  rewrite !app_nth1 by lia. reflexivity.
Qed.

Lemma column_more_rows (name : string) (df : DataFrame)
      (extra : list (Timestamp * list Q)) :
  column name (mkDataFrame (columns df) (rows df ++ extra))
  = (column name df ++ column name (mkDataFrame (columns df) extra))%list.
Proof.
  unfold column, column_position. cbn [columns rows].
  destruct (match columns df with
            | Index names => position name names
            | MultiIndex _ => None
            end); [apply map_app | reflexivity].
Qed.

(** X6.  The scan reads the days in order and stops at the first streak of 3, so
    a download that reaches further forward (the same rows followed by later
    ones) yields an entry with the same direction and the same [days]. *)
Theorem later_rows_keep_streak (symbol : string) (df : DataFrame)
        (extra : list (Timestamp * list Q)) (e : TrendEntry) :
  has_column "Close" df = true ->
  trend_entry symbol df = Some e ->
  exists e',
    trend_entry symbol (mkDataFrame (columns df) (rows df ++ extra)) = Some e'
    /\ streak_type e' = streak_type e
    /\ days e' = days e
    /\ trend_symbol e' = trend_symbol e.
Proof.
  intros Hcol He. unfold trend_entry in *.
  destruct (scan (pct_change 1 (column "Close" df)) (seq 1 (len df - 1)) 0 None)
    as [[n tr]|] eqn:E; [|discriminate].
  injection He as <-.
  set (df' := mkDataFrame (columns df) (rows df ++ extra)).
  assert (Hlen : len df' = (len df + List.length extra)%nat).
  { unfold len, df'. cbn [rows]. apply length_app. }
  assert (Hrows : (1 <= len df)%nat).
  { apply scan_needs_three in E. rewrite length_seq in E. lia. }
  assert (E' : scan (pct_change 1 (column "Close" df')) (seq 1 (len df' - 1)) 0 None
               = Some (n, tr)).
  { rewrite Hlen.
    replace (len df + List.length extra - 1)%nat
      with ((len df - 1) + List.length extra)%nat by lia.
    rewrite seq_app. apply scan_app_some.
    rewrite <- E. apply scan_ext. intros i Hi.
    apply in_seq in Hi. unfold df'. rewrite column_more_rows.
    apply pct_change_prefix.
    rewrite (length_column "Close" df Hcol). lia. }
  rewrite E'. eexists. split; [reflexivity|]. repeat split.
Qed.

Lemma later_rows_keep_streak_witness :
  exists e',
    trend_entry "TCS.NS"
      (mkDataFrame (columns (daily rise_then_fall))
         (rows (daily rise_then_fall) ++ rows (daily [1; 1; 1; 1]))) = Some e'
    /\ streak_type e' = Some rise
    /\ days e' = 3%nat
    /\ trend_symbol e' = "TCS.NS".
Proof.
  apply (later_rows_keep_streak "TCS.NS" (daily rise_then_fall)
           (rows (daily [1; 1; 1; 1]))
           (mkTrendEntry "TCS.NS" (Some rise) 3 1 "2025-10-07"
              (map round2 rise_then_fall)
              ["01-Oct"; "02-Oct"; "03-Oct"; "04-Oct"; "05-Oct"; "06-Oct"; "07-Oct"]));
    reflexivity.
Defined.

(** ** What [get_stock_data] hands to the endpoints *)

(** X1.  The frame has plain column labels, it is the empty frame exactly when the
    download raised or came back empty, and otherwise it has the rows that
    were downloaded. *)
Theorem get_stock_data_shape (yf : Market) (s : string) :
  (exists names, columns (get_stock_data yf s) = Index names)
  /\ (empty (get_stock_data yf s) = true
      <-> yf s = Raised \/ exists df, yf s = Returned df /\ empty df = true)
  /\ (empty (get_stock_data yf s) = true -> get_stock_data yf s = empty_frame)
  /\ (forall df, yf s = Returned df -> empty df = false ->
                 rows (get_stock_data yf s) = rows df
                 /\ column_count (columns (get_stock_data yf s))
                    = column_count (columns df)).
Proof.
  unfold get_stock_data.
  destruct (yf s) as [|df] eqn:E.
  - split; [exists []; reflexivity|].
    split; [split; [intros _; left; reflexivity | reflexivity]|].
    split; [reflexivity|]. intros df H. discriminate H.
  - destruct (empty df) eqn:Hempty.
    + split; [exists []; reflexivity|].
      split; [split; [intros _; right; exists df; split; [reflexivity | exact Hempty]
                     | reflexivity]|].
      split; [reflexivity|].
      intros df' H Hne. injection H as <-. congruence.
    + split.
      { unfold flatten_columns. destruct (columns df) as [names|tuples] eqn:C.
        - exists names. exact C.
        - eexists. reflexivity. }
      rewrite empty_flatten_columns, Hempty.
      split.
      { split; [discriminate|].
        intros [H|[df' [H Hdf']]]; [discriminate|].
        injection H as <-. congruence. }
      split; [discriminate|].
      intros df' H _. injection H as <-.
      unfold flatten_columns.
      destruct df as [[names|tuples] table]; cbn; [split; reflexivity|].
      split; [reflexivity | apply length_map].
Qed.

(** ** Histories that are too short *)

Lemma momentum_row_short (periods : nat) (symbol : string) (df : DataFrame) :
  (List.length (column "Close" df) <= periods)%nat ->
  momentum_row periods symbol df = None.
Proof.
  intros Hshort. unfold momentum_row.
  assert (Hnone : dropna (map (fun x => fmul x 100)
                              (pct_change periods (column "Close" df))) = []).
  { apply filter_none. intros x Hx.
    apply in_map_iff in Hx. destruct Hx as [y [<- Hy]].
    apply (In_nth _ _ NaN) in Hy. destruct Hy as [i [Hi <-]].
    rewrite length_pct_change in Hi.
    rewrite nth_pct_change by exact Hi.
    destruct (Nat.ltb_spec i periods) as [_|Hge]; [reflexivity | lia]. }
  rewrite Hnone. reflexivity.
Qed.

Lemma momentum_rows_none (yf : Market) (periods : nat) (symbols : list string) :
  forallb (fun s => (List.length (column "Close" (get_stock_data yf s)) <=? periods)%nat)
          symbols = true ->
  flat_map (momentum_rows yf periods) symbols = [].
Proof.
  induction symbols as [|s rest IH]; intros Hall; [reflexivity|].
  simpl in Hall. apply andb_true_iff in Hall. destruct Hall as [Hs Hrest].
  simpl. rewrite (IH Hrest), app_nil_r.
  unfold momentum_rows. destruct (unusable _); [reflexivity|].
  rewrite momentum_row_short; [reflexivity|].
  apply Nat.leb_le. exact Hs.
Qed.

(** X7.  A change over [periods] days needs [periods + 1] closes: when no ticker
    has more than [periods] closes, [calculate_momentum_data] returns the
    empty table with the error "No valid momentum data found", and both
    momentum endpoints answer 400 with it. *)
Theorem short_histories_no_momentum (yf : Market) (symbols : list string)
        (periods : nat) :
  forallb (fun s => (List.length (column "Close" (get_stock_data yf s)) <=? periods)%nat)
          symbols = true ->
  calculate_momentum_data yf symbols periods
  = ([], Some "No valid momentum data found")
  /\ (periods = 5%nat ->
      momentum_stocks_on symbols yf
      = (Error "No valid momentum data found", 400%nat)
      /\ high_low_performers_on symbols yf
         = (Error "No valid momentum data found", 400%nat)).
Proof.
  intros Hall.
  assert (Hcalc : calculate_momentum_data yf symbols periods
                  = ([], Some "No valid momentum data found")).
  { unfold calculate_momentum_data.
    rewrite momentum_loop_rows, app_nil_l, (momentum_rows_none _ _ _ Hall).
    reflexivity. }
  split; [exact Hcalc|].
  intros ->. unfold momentum_stocks_on, high_low_performers_on.
  rewrite Hcalc. split; reflexivity.
Qed.

Lemma short_histories_no_momentum_witness :
  calculate_momentum_data (fun _ => Returned (daily [100; 101; 102; 103; 104]))
    NIFTY_100 5
  = ([], Some "No valid momentum data found").
Proof.
  apply (short_histories_no_momentum
           (fun _ => Returned (daily [100; 101; 102; 103; 104])) NIFTY_100 5).
  reflexivity.
Defined.

Lemma average_row_short (symbol : string) (df : DataFrame) :
  (List.length (column "Close" df) < 20)%nat ->
  average_row 20 symbol df = Skipped.
Proof.
  intros Hshort. unfold average_row.
  assert (Hnone : dropna (rolling_mean 20 (column "Close" df)) = []).
  { apply filter_none. intros x Hx.
    apply (In_nth _ _ NaN) in Hx. destruct Hx as [i [Hi <-]].
    unfold rolling_mean in Hi. rewrite length_map, length_seq in Hi.
    rewrite nth_rolling_mean by exact Hi.
    destruct (Nat.ltb_spec (i + 1) 20) as [_|Hge]; [reflexivity | lia]. }
  rewrite Hnone. reflexivity.
Qed.

(** X8.  The download covers one month, and a month can have fewer than 20
    trading days: when no ticker has 20 closes, /api/moving_average has no
    row at all and answers 400, whatever the prices are. *)
Theorem short_month_no_average (yf : Market) (symbols : list string) :
  forallb (fun s => (List.length (column "Close" (get_stock_data yf s)) <? 20)%nat)
          symbols = true ->
  moving_average_stocks_on symbols yf
  = (Error "No valid Moving Average data found", 400%nat).
Proof.
  intros Hall. unfold moving_average_stocks_on.
  assert (Hloop : forall results,
             moving_average_loop yf symbols results = inr results).
  { induction symbols as [|s rest IH]; intros results; [reflexivity|].
    simpl in Hall. apply andb_true_iff in Hall. destruct Hall as [Hs Hrest].
    simpl. destruct (unusable _); [apply IH; exact Hrest|].
    rewrite average_row_short by (apply Nat.ltb_lt; exact Hs).
    apply IH. exact Hrest. }
  rewrite Hloop. reflexivity.
Qed.

Lemma short_month_no_average_witness :
  moving_average_stocks_on NIFTY_100 (fun _ => Returned (daily (climb 100 19)))
  = (Error "No valid Moving Average data found", 400%nat).
Proof.
  apply (short_month_no_average (fun _ => Returned (daily (climb 100 19)))
           NIFTY_100).
  reflexivity.
Defined.

(** ** The momentum table and the two endpoints built on it *)

Lemma flat_map_short {A B : Type} (f : A -> list B) (l : list A) :
  (forall x, (List.length (f x) <= 1)%nat) ->
  (List.length (flat_map f l) <= List.length l)%nat.
Proof.
  intros Hf. induction l as [|x rest IH]; simpl; [lia|].
  rewrite length_app. specialize (Hf x). lia.
Qed.

Lemma filter_shorter {A : Type} (f : A -> bool) (l : list A) :
  (List.length (filter f l) <= List.length l)%nat.
Proof.
  induction l as [|x rest IH]; simpl; [lia|].
  destruct (f x); simpl; lia.
Qed.

(** X9.  [calculate_momentum_data] returns an error exactly when it returns an
    empty table; the table never holds a NaN change, has at most one row per
    symbol of the list, and is in descending order of [change_pct]. *)
Theorem momentum_table_shape (yf : Market) (symbols : list string) (periods : nat) :
  match calculate_momentum_data yf symbols periods with
  | (table, error) =>
      (error = None <-> table <> [])
      /\ Forall (fun r => is_nan (change_pct r) = false) table
      /\ (List.length table <= List.length symbols)%nat
      /\ StronglySorted (descending change_pct) table
  end.
Proof.
  unfold calculate_momentum_data. rewrite momentum_loop_rows, app_nil_l.
  pose proof (flat_map_short (momentum_rows yf periods) symbols
                (momentum_rows_short yf periods)) as Hshort.
  destruct (flat_map (momentum_rows yf periods) symbols) as [|r rows] eqn:E.
  - split; [split; [discriminate | intros H; contradiction]|].
    split; [constructor|]. split; [simpl; lia | constructor].
  - pose proof (filter_shorter (fun r0 => negb (is_nan (change_pct r0))) (r :: rows))
      as Hfilter.
    assert (Hnum : Forall (fun r0 => numeric change_pct r0 = true)
                     (filter (fun r0 => negb (is_nan (change_pct r0))) (r :: rows))).
    { apply Forall_forall. intros x Hx. apply filter_In in Hx. apply Hx. }
    destruct (filter (fun r0 => negb (is_nan (change_pct r0))) (r :: rows))
      as [|v valid] eqn:F.
    + split; [split; [discriminate | intros H; contradiction]|].
      split; [constructor|]. split; [simpl; lia | constructor].
    + pose proof (sort_values_perm change_pct (v :: valid)) as Hperm.
      split.
      { split; [|reflexivity]. intros _ Hnil.
        rewrite Hnil in Hperm. apply Permutation_nil in Hperm. discriminate. }
      split.
      { apply Forall_forall. intros x Hx.
        apply (Permutation_in _ Hperm) in Hx.
        rewrite Forall_forall in Hnum. specialize (Hnum x Hx).
        unfold numeric in Hnum. destruct (is_nan (change_pct x));
          [discriminate | reflexivity]. }
      split.
      { rewrite (Permutation_length Hperm). simpl in *. lia. }
      apply sort_values_sorted. exact Hnum.
Qed.

(** X10.  The two momentum endpoints agree: /api/high_low_performers fails with the
    error of /api/momentum, and otherwise its [high] is the first N and its
    [low] the last N records of the /api/momentum payload, with N = 3, or
    half the number of records (rounded down) when there are fewer than 3. *)
Theorem high_low_from_momentum (yf : Market) (symbols : list string) :
  match momentum_stocks_on symbols yf with
  | (Json records, _) =>
      let n := if (List.length records <? 3)%nat
               then (List.length records / 2)%nat else 3%nat in
      high_low_performers_on symbols yf
      = (Json (mkHighLow (firstn n records) (lastn n records) "5-Day (1 Week)" n),
         200%nat)
      /\ (n <= List.length records)%nat
  | (Error msg, code) =>
      high_low_performers_on symbols yf = (Error msg, code) /\ code = 400%nat
  | (Unhandled _, _) => False
  end.
Proof.
  unfold momentum_stocks_on, high_low_performers_on.
  destruct (calculate_momentum_data yf symbols 5) as [table [msg|]].
  - split; reflexivity.
  - cbv zeta. split; [reflexivity|].
    destruct (Nat.ltb_spec (List.length table) 3) as [Hlt|Hge]; [|lia].
    apply Nat.Div0.div_le_upper_bound. lia.
Qed.

Lemma NoDup_map_app_apart {A B : Type} (f : A -> B) (l1 l2 : list A) :
  NoDup (map f (l1 ++ l2)) ->
  forall a b, In a l1 -> In b l2 -> f a <> f b.
Proof.
  induction l1 as [|x rest IH]; intros Hnd a b Ha Hb; [destruct Ha|].
  simpl in Hnd. inversion Hnd as [|? ? Hnotin Hrest]; subst.
  destruct Ha as [<-|Ha].
  - intros E. apply Hnotin. rewrite E. apply in_map.
    apply in_or_app. right. exact Hb.
  - apply IH; assumption.
Qed.

Lemma shared_element {A : Type} (n m : nat) (l : list A) :
  (m < n)%nat -> (m < List.length l)%nat ->
  exists x, In x (firstn n l) /\ In x (skipn m l).
Proof.
  intros Hmn Hm.
  destruct (skipn m l) as [|x rest] eqn:E.
  - apply (f_equal (@List.length A)) in E. rewrite length_skipn in E.
    simpl in E. lia.
  - exists x. split; [|left; reflexivity].
    rewrite <- (firstn_skipn m l), E.
    rewrite firstn_app, length_firstn.
    apply in_or_app. right.
    replace (n - Nat.min m (List.length l))%nat with (S (n - m - 1)) by lia.
    left. reflexivity.
Qed.

(** X11.  Whether [high] and [low] can name the same ticker depends only on the
    number k of tickers with valid momentum data: with k < 3 or k >= 6 no
    ticker is in both lists; with 3 <= k < 6 some record is in both. *)
Theorem high_low_overlap (yf : Market) (r : HighLow) :
  high_low_performers yf = (Json r, 200%nat) ->
  let k := List.length (valid_momentum yf NIFTY_100) in
  ((k < 3)%nat \/ (6 <= k)%nat ->
   forall h l, In h (high r) -> In l (low r) ->
               momentum_symbol h <> momentum_symbol l)
  /\ ((3 <= k < 6)%nat -> exists x, In x (high r) /\ In x (low r)).
Proof.
  intros Hreply k.
  assert (Hsome : valid_momentum yf NIFTY_100 <> []).
  { intros E. destruct (momentum_reply yf) as [Hnone _].
    destruct (Hnone E) as [_ [msg Herr]]. rewrite Herr in Hreply. discriminate. }
  pose proof (high_low_performers_valid yf Hsome) as Hshape. cbv zeta in Hshape.
  pose proof (length_ranking yf NIFTY_100) as Hlen. fold k in Hlen.
  assert (Hnd : NoDup (map momentum_symbol
                         (sort_values change_pct (valid_momentum yf NIFTY_100)))).
  { apply (Permutation_NoDup
             (Permutation_map momentum_symbol
                (Permutation_sym (sort_values_perm change_pct _)))).
    apply valid_momentum_NoDup, NIFTY_100_NoDup. }
  set (ranking := sort_values change_pct (valid_momentum yf NIFTY_100)) in *.
  rewrite Hlen in Hshape. rewrite Hshape in Hreply.
  injection Hreply as <-. cbn [high low].
  set (n := if (k <? 3)%nat then (k / 2)%nat else 3%nat).
  assert (Hhalf : (2 * (k / 2) <= k)%nat) by (apply Nat.Div0.mul_div_le).
  split.
  - intros Hk h l Hh Hl.
    assert (Hn : (n <= k - n)%nat).
    { unfold n. destruct (Nat.ltb_spec k 3); lia. }
    rewrite <- (firstn_skipn n ranking) in Hnd.
    apply (NoDup_map_app_apart _ _ _ Hnd h l Hh).
    unfold lastn in Hl. rewrite Hlen in Hl.
    apply (In_skipn_more n (k - n)); assumption.
  - intros Hk. unfold n, lastn. rewrite Hlen.
    destruct (Nat.ltb_spec k 3); [lia|].
    apply shared_element; lia.
Qed.

Lemma high_low_overlap_witness :
  exists x,
    In x (firstn 3 (sort_values change_pct (valid_momentum three_ticker_market NIFTY_100)))
    /\ In x (lastn 3 (sort_values change_pct (valid_momentum three_ticker_market NIFTY_100))).
Proof.
  apply (high_low_overlap three_ticker_market
           (mkHighLow
              (firstn 3 (sort_values change_pct
                           (valid_momentum three_ticker_market NIFTY_100)))
              (lastn 3 (sort_values change_pct
                          (valid_momentum three_ticker_market NIFTY_100)))
              "5-Day (1 Week)" 3)).
  - reflexivity.
  - vm_compute. lia.
Defined.

(** ** Signs survive the rounding *)

Lemma round_half_even_nonneg (x : Q) : 0 <= x -> (0 <= round_half_even x)%Z.
Proof.
  intros Hx. unfold round_half_even. cbv zeta.
  assert (Hf : (0 <= Qfloor x)%Z).
  { change 0%Z with (Qfloor 0). apply Qfloor_resp_le. exact Hx. }
  destruct (x - inject_Z (Qfloor x) ?= 1 # 2); [|lia|lia].
  destruct (Z.even (Qfloor x)); lia.
Qed.

Lemma round_half_even_nonpos (x : Q) : x <= 0 -> (round_half_even x <= 0)%Z.
Proof.
  intros Hx. unfold round_half_even. cbv zeta.
  assert (Hf : (Qfloor x <= 0)%Z).
  { change 0%Z with (Qfloor 0). apply Qfloor_resp_le. exact Hx. }
  pose proof (Qfloor_le x) as Hle.
  destruct (Z.eq_dec (Qfloor x) 0) as [E|Hne].
  - rewrite E in *.
    destruct (x - inject_Z 0 ?= 1 # 2) eqn:C; [reflexivity | reflexivity |].
    apply Qcompare_Gt_iff in C. exfalso.
    change (inject_Z 0) with 0 in C. lra.
  - destruct (x - inject_Z (Qfloor x) ?= 1 # 2); [|lia|lia].
    destruct (Z.even (Qfloor x)); lia.
Qed.

Lemma inject_Z_div_100_pos (z : Z) : 0 < inject_Z z / 100 <-> (0 < z)%Z.
Proof.
  unfold Qlt, Qdiv, Qmult, Qinv, inject_Z. simpl. lia.
Qed.

Lemma inject_Z_div_100_neg (z : Z) : inject_Z z / 100 < 0 <-> (z < 0)%Z.
Proof.
  unfold Qlt, Qdiv, Qmult, Qinv, inject_Z. simpl. lia.
Qed.

(** Rounding to two decimals never turns a loss into a gain or a gain into a
    loss. *)
Lemma round2_sign (y : Q) :
  (0 < round2 y -> 0 < y) /\ (round2 y < 0 -> y < 0).
Proof.
  unfold round2. split; intros H.
  - apply (proj1 (inject_Z_div_100_pos (round_half_even (y * 100)))) in H.
    destruct (Qlt_le_dec 0 y) as [Hy|Hy]; [exact Hy|].
    assert (Hx : y * 100 <= 0) by lra.
    apply round_half_even_nonpos in Hx. lia.
  - apply (proj1 (inject_Z_div_100_neg (round_half_even (y * 100)))) in H.
    destruct (Qlt_le_dec y 0) as [Hy|Hy]; [exact Hy|].
    assert (Hx : 0 <= y * 100) by lra.
    apply round_half_even_nonneg in Hx. lia.
Qed.

(** X12.  On positive closes the sign of the reported momentum is the direction
    the price took over the five days: a positive [change_pct] means the last
    close is above the close five trading days earlier, a negative one that
    it is below. *)
Theorem momentum_sign (symbol : string) (df : DataFrame) (row : MomentumRow) :
  let closes := column "Close" df in
  let n := List.length closes in
  (6 <= n)%nat ->
  forallb Qpositive closes = true ->
  momentum_row 5 symbol df = Some row ->
  exists q,
    change_pct row = Fin q
    /\ (0 < q -> nth (n - 6) closes 0 < nth (n - 1) closes 0)
    /\ (q < 0 -> nth (n - 1) closes 0 < nth (n - 6) closes 0).
Proof.
  intros closes n Hn Hpos Hrow.
  rewrite (momentum_row_positive symbol df Hn Hpos) in Hrow.
  fold closes in Hrow. fold n in Hrow.
  injection Hrow as <-. cbn [change_pct].
  set (a := nth (n - 1) closes 0). set (b := nth (n - 6) closes 0).
  assert (Hb : 0 < b).
  { apply Qpositive_lt. apply forallb_nth; [exact Hpos | fold n; lia]. }
  pose proof (ratio_compare b a Hb) as Hcmp.
  eexists. split; [reflexivity|].
  destruct (round2_sign ((a / b - 1) * 100)) as [Hgain Hloss].
  split; intros H.
  - apply Hgain in H.
    assert (Hr : 0 < a / b - 1) by lra.
    apply Qcompare_Gt_iff in Hr. rewrite Hcmp in Hr.
    apply Qcompare_Gt_iff. exact Hr.
  - apply Hloss in H.
    assert (Hr : a / b - 1 < 0) by lra.
    apply Qcompare_Lt_iff in Hr. rewrite Hcmp in Hr.
    apply Qcompare_Lt_iff. exact Hr.
Qed.

Lemma momentum_sign_witness :
  exists q,
    Fin (round2 ((71 / 66 - 1) * 100)) = Fin q
    /\ (0 < q -> nth 16 (climb 50 22) 0 < nth 21 (climb 50 22) 0)
    /\ (q < 0 -> nth 21 (climb 50 22) 0 < nth 16 (climb 50 22) 0).
Proof.
  apply (momentum_sign "LT.NS" (daily (climb 50 22))
           (mkMomentumRow "LT.NS" (Fin (round2 ((71 / 66 - 1) * 100))) 71 "2025-10-22")).
  - vm_compute. lia.
  - reflexivity.
  - reflexivity.
Defined.

(** ** The moving-average table *)

Lemma fltb_Fin (a b : Q) : fltb (Fin a) (Fin b) = true <-> a < b.
Proof.
  unfold fltb, fleb. rewrite <- (Qcompare_antisym a b).
  destruct (a ?= b) eqn:E; simpl.
  - apply Qcompare_Eq_iff in E. split; [discriminate|]. intros H. lra.
  - apply Qcompare_Lt_iff in E. tauto.
  - apply Qcompare_Gt_iff in E. split; [discriminate|]. intros H. lra.
Qed.

(** X13.  On positive closes the status of a moving-average record agrees
    with the sign of the deviation it reports: a positive [deviation_pct]
    comes with "Above SMA", a negative one with "Below SMA". *)
Theorem status_follows_deviation (symbol : string) (df : DataFrame)
        (row : AverageRow) :
  forallb Qpositive (column "Close" df) = true ->
  average_row 20 symbol df = Appended row ->
  exists q, deviation_pct row = Fin q
            /\ (0 < q -> status row = "Above SMA")
            /\ (q < 0 -> status row = "Below SMA").
Proof.
  intros Hpos Hrow.
  rewrite (average_row_positive symbol df Hpos) in Hrow.
  set (closes := column "Close" df) in *.
  set (m := mean (lastn 20 closes)) in *.
  set (last_close := iloc_last closes 0) in *.
  destruct (Nat.ltb_spec (List.length closes) 20) as [Hshort|Hlong];
    [discriminate|].
  injection Hrow as <-. cbn [status deviation_pct].
  assert (Hm : 0 < m).
  { unfold m. apply mean_positive.
    - intros E.
      assert (HL : List.length (lastn 20 closes) = 0%nat) by (rewrite E; reflexivity).
      rewrite length_lastn in HL. lia.
    - unfold lastn. apply forallb_skipn. exact Hpos. }
  assert (Habove : m < last_close ->
                   (if fltb (Fin m) (Fin last_close) then "Above SMA" else "Below SMA")
                   = "Above SMA").
  { intros H. rewrite (proj2 (fltb_Fin m last_close) H). reflexivity. }
  assert (Hbelow : last_close <= m ->
                   (if fltb (Fin m) (Fin last_close) then "Above SMA" else "Below SMA")
                   = "Below SMA").
  { intros H. destruct (fltb (Fin m) (Fin last_close)) eqn:F; [|reflexivity].
    apply fltb_Fin in F. lra. }
  eexists. split; [reflexivity|].
  destruct (round2_sign ((last_close - m) / m * 100)) as [Hgain Hloss].
  assert (Hratio : (last_close - m) / m * m == last_close - m).
  { field. intros E. rewrite E in Hm. apply (Qlt_irrefl 0 Hm). }
  split; intros H.
  - apply Habove. apply Hgain in H.
    assert (Hr : 0 < (last_close - m) / m) by lra.
    assert (Hp : 0 < (last_close - m) / m * m) by (apply Qmult_lt_0_compat; assumption).
    rewrite Hratio in Hp. lra.
  - apply Hbelow. apply Hloss in H.
    assert (Hr : 0 < - ((last_close - m) / m)) by lra.
    assert (Hp : 0 < - ((last_close - m) / m) * m) by (apply Qmult_lt_0_compat; assumption).
    assert (Hn : - ((last_close - m) / m) * m == - ((last_close - m) / m * m)) by ring.
    rewrite Hn, Hratio in Hp. lra.
Qed.

Lemma status_follows_deviation_witness :
  exists row q,
    average_row 20 "LT.NS" (daily (climb 50 22)) = Appended row
    /\ deviation_pct row = Fin q
    /\ (0 < q -> status row = "Above SMA")
    /\ (q < 0 -> status row = "Below SMA").
Proof.
  eexists.
  assert (Hrow : average_row 20 "LT.NS" (daily (climb 50 22)) = Appended _)
    by (vm_compute; reflexivity).
  destruct (status_follows_deviation "LT.NS" (daily (climb 50 22)) _
              ltac:(vm_compute; reflexivity) Hrow) as [q [Hq [Hup Hdown]]].
  exists q. split; [exact Hrow|]. split; [exact Hq|]. split; assumption.
Defined.

Lemma average_rows_short (yf : Market) (s : string) :
  (List.length (average_rows yf s) <= 1)%nat.
Proof.
  unfold average_rows. destruct (average_outcome yf s); simpl; lia.
Qed.

Lemma average_rows_positive (yf : Market) (s : string) (r : AverageRow) :
  forallb Qpositive (column "Close" (get_stock_data yf s)) = true ->
  In r (average_rows yf s) ->
  average_symbol r = s /\ numeric deviation_pct r = true.
Proof.
  intros Hpos. unfold average_rows, average_outcome.
  destruct (unusable (get_stock_data yf s)); [intros []|].
  rewrite (average_row_positive s (get_stock_data yf s) Hpos).
  destruct (_ <? 20)%nat; [intros []|].
  intros [<-|[]]. split; reflexivity.
Qed.

Lemma average_symbols_NoDup (yf : Market) (symbols : list string) :
  forallb (fun s => forallb Qpositive (column "Close" (get_stock_data yf s)))
          symbols = true ->
  NoDup symbols ->
  NoDup (map average_symbol (flat_map (average_rows yf) symbols)).
Proof.
  intros Hpos Hnd. induction Hnd as [|s rest Hnotin Hnd IH]; [constructor|].
  simpl in Hpos. apply andb_true_iff in Hpos. destruct Hpos as [Hs Hrest].
  simpl flat_map. rewrite map_app.
  pose proof (average_rows_short yf s) as Hshort.
  pose proof (average_rows_positive yf s) as Hsym.
  destruct (average_rows yf s) as [|r [|r' more]]; simpl in *;
    [apply IH; exact Hrest| |lia].
  constructor; [|apply IH; exact Hrest].
  destruct (Hsym r Hs (or_introl eq_refl)) as [-> _].
  intros Hin. apply Hnotin.
  apply in_map_iff in Hin. destruct Hin as [r' [Hr' Hin]].
  apply in_flat_map in Hin. destruct Hin as [s' [Hs' Hin]].
  rewrite forallb_forall in Hrest.
  destruct (average_rows_positive yf s' r' (Hrest s' Hs') Hin) as [E _].
  congruence.
Qed.

(** X14.  In a market of positive prices /api/moving_average never raises: it
    answers 400 when no ticker has 20 closes, and otherwise 200 with one
    record for each ticker that has, no ticker twice, in descending order of
    [deviation_pct] ("biggest movers first"). *)
Theorem moving_average_ranking (yf : Market) :
  forallb (fun s => forallb Qpositive (column "Close" (get_stock_data yf s)))
          NIFTY_100 = true ->
  match moving_average_stocks yf with
  | (Json records, code) =>
      code = 200%nat
      /\ Permutation records (flat_map (average_rows yf) NIFTY_100)
      /\ StronglySorted (descending deviation_pct) records
      /\ NoDup (map average_symbol records)
  | (Error _, code) =>
      code = 400%nat /\ flat_map (average_rows yf) NIFTY_100 = []
  | (Unhandled _, _) => False
  end.
Proof.
  intros Hpos.
  pose proof (positive_prices_quiet yf NIFTY_100 Hpos) as Hquiet.
  pose proof (average_symbols_NoDup yf NIFTY_100 Hpos NIFTY_100_NoDup) as Hnd.
  assert (Hnum : Forall (fun r => numeric deviation_pct r = true)
                   (flat_map (average_rows yf) NIFTY_100)).
  { apply Forall_forall. intros r Hr.
    apply in_flat_map in Hr. destruct Hr as [s [Hs Hr]].
    rewrite forallb_forall in Hpos.
    apply (average_rows_positive yf s r (Hpos s Hs) Hr). }
  unfold moving_average_stocks, moving_average_stocks_on.
  rewrite (moving_average_loop_rows yf NIFTY_100 [] Hquiet), app_nil_l.
  destruct (flat_map (average_rows yf) NIFTY_100) as [|r rows] eqn:E.
  - split; reflexivity.
  - split; [reflexivity|].
    split; [apply sort_values_perm|].
    split; [apply sort_values_sorted; exact Hnum|].
    apply (Permutation_NoDup
             (Permutation_map average_symbol
                (Permutation_sym (sort_values_perm deviation_pct _)))).
    exact Hnd.
Qed.

Lemma moving_average_ranking_witness :
  match moving_average_stocks full_market with
  | (Json records, code) =>
      code = 200%nat
      /\ Permutation records (flat_map (average_rows full_market) NIFTY_100)
      /\ StronglySorted (descending deviation_pct) records
      /\ NoDup (map average_symbol records)
  | (Error _, code) =>
      code = 400%nat /\ flat_map (average_rows full_market) NIFTY_100 = []
  | (Unhandled _, _) => False
  end.
Proof.
  apply (moving_average_ranking full_market). reflexivity.
Defined.

(** ** A zero average fails the whole request *)

Lemma last_rolling_mean (closes : list Q) :
  (20 <= List.length closes)%nat ->
  iloc_last (rolling_mean 20 closes) NaN = Fin (mean (lastn 20 closes))
  /\ dropna (rolling_mean 20 closes) <> [].
Proof.
  intros Hlong. set (n := List.length closes) in *.
  assert (Hlen : List.length (rolling_mean 20 closes) = n).
  { unfold rolling_mean. rewrite length_map, length_seq. reflexivity. }
  assert (Hlast : iloc_last (rolling_mean 20 closes) NaN
                  = Fin (mean (lastn 20 closes))).
  { unfold iloc_last. rewrite last_is_nth, Hlen.
    rewrite nth_rolling_mean by (fold n; lia).
    destruct (Nat.ltb_spec (n - 1 + 1) 20) as [Hlt|_]; [lia|].
    replace (n - 1 + 1 - 20)%nat with (n - 20)%nat by lia.
    unfold mean, lastn. fold n.
    assert (Hl : List.length (skipn (n - 20) closes) = 20%nat)
      by (rewrite length_skipn; fold n; lia).
    rewrite firstn_all2 by (rewrite Hl; lia).
    rewrite Hl. reflexivity. }
  split; [exact Hlast|].
  apply (filter_nonempty _ _ (iloc_last (rolling_mean 20 closes) NaN)).
  - unfold iloc_last. rewrite last_is_nth. apply nth_In. lia.
  - rewrite Hlast. reflexivity.
Qed.

Lemma raising_ticker_ends_loop (yf : Market) (symbols : list string) (s : string) :
  In s symbols -> average_raises yf s = true ->
  forall results, moving_average_loop yf symbols results = inl "ZeroDivisionError".
Proof.
  intros Hin Hraise.
  induction symbols as [|x rest IH]; intros results; [destruct Hin|].
  simpl.
  destruct (unusable (get_stock_data yf x)) eqn:Hu.
  - destruct Hin as [->|Hin]; [|apply IH; exact Hin].
    unfold average_raises, average_outcome in Hraise. rewrite Hu in Hraise.
    discriminate.
  - destruct (average_row 20 x (get_stock_data yf x)) as [|row|exn] eqn:Hrow.
    + destruct Hin as [->|Hin]; [|apply IH; exact Hin].
      unfold average_raises, average_outcome in Hraise.
      rewrite Hu, Hrow in Hraise. discriminate.
    + destruct Hin as [->|Hin]; [|apply IH; exact Hin].
      unfold average_raises, average_outcome in Hraise.
      rewrite Hu, Hrow in Hraise. discriminate.
    + unfold average_row in Hrow.
      destruct (dropna _); [discriminate|].
      destruct (py_div _ _); [discriminate|].
      injection Hrow as <-. reflexivity.
Qed.

(** X15.  The loop of /api/moving_average has no handler around its arithmetic: if
    one usable ticker with at least 20 closes has a zero mean over its last
    20 closes, the division raises and the request ends with status 500,
    whatever the other tickers hold. *)
Theorem zero_mean_fails_request (yf : Market) (s : string) :
  let closes := column "Close" (get_stock_data yf s) in
  In s NIFTY_100 ->
  failed yf s = false ->
  (20 <= List.length closes)%nat ->
  mean (lastn 20 closes) == 0 ->
  moving_average_stocks yf = (Unhandled "ZeroDivisionError", 500%nat).
Proof.
  intros closes Hin Hok Hlong Hzero.
  assert (Hraise : average_raises yf s = true).
  { unfold average_raises, average_outcome. rewrite failed_unusable, Hok.
    unfold average_row. fold closes.
    destruct (last_rolling_mean closes Hlong) as [Hlast Hne].
    destruct (dropna (rolling_mean 20 closes)); [contradiction|].
    rewrite Hlast. unfold fsub_from, py_div.
    rewrite (proj2 (Qcompare_Eq_iff _ 0) Hzero). reflexivity. }
  unfold moving_average_stocks, moving_average_stocks_on.
  rewrite (raising_ticker_ends_loop yf NIFTY_100 s Hin Hraise). reflexivity.
Qed.

Lemma zero_mean_fails_request_witness :
  moving_average_stocks
    (fun s => if String.eqb s "ITC.NS" then Returned (daily (repeat 0 21))
              else Returned (daily (climb 100 22)))
  = (Unhandled "ZeroDivisionError", 500%nat).
Proof.
  apply (zero_mean_fails_request
           (fun s => if String.eqb s "ITC.NS" then Returned (daily (repeat 0 21))
                     else Returned (daily (climb 100 22)))
           "ITC.NS").
  - simpl. tauto.
  - reflexivity.
  - vm_compute. lia.
  - vm_compute. reflexivity.
Defined.

(** ** One market, three endpoints *)

Lemma momentum_rows_fields (yf : Market) (s : string) (r : MomentumRow) :
  In r (momentum_rows yf 5 s) ->
  momentum_symbol r = s
  /\ momentum_last_close r = iloc_last (column "Close" (get_stock_data yf s)) 0
  /\ momentum_as_of r = strftime_ymd (iloc_last (index (get_stock_data yf s)) epoch).
Proof.
  unfold momentum_rows. destruct (unusable _); [intros []|].
  unfold momentum_row. destruct (dropna _); [intros []|].
  intros [<-|[]]. repeat split.
Qed.

Lemma trend_rows_fields (yf : Market) (s : string) (e : TrendEntry) :
  In e (trend_rows yf s) ->
  trend_symbol e = s
  /\ trend_last_close e = iloc_last (column "Close" (get_stock_data yf s)) 0
  /\ trend_as_of e = strftime_ymd (iloc_last (index (get_stock_data yf s)) epoch).
Proof.
  unfold trend_rows. destruct (unusable _); [intros []|].
  unfold trend_entry. destruct (scan _ _ 0%nat None) as [[n tr]|]; [|intros []].
  intros [<-|[]]. repeat split.
Qed.

Lemma average_rows_fields (yf : Market) (s : string) (r : AverageRow) :
  In r (average_rows yf s) ->
  average_symbol r = s
  /\ average_last_close r
     = round2 (iloc_last (column "Close" (get_stock_data yf s)) 0)
  /\ average_as_of r = strftime_ymd (iloc_last (index (get_stock_data yf s)) epoch).
Proof.
  unfold average_rows, average_outcome.
  destruct (unusable _); [intros []|].
  unfold average_row. destruct (dropna _); [intros []|].
  destruct (py_div _ _); [|intros []].
  intros [<-|[]]. repeat split.
Qed.

(** X16.  On one market the endpoints describe a ticker consistently: its trend
    entry and its momentum record carry the same [last_close] and the same
    [as_of], and its moving-average record carries the same [as_of] and that
    [last_close] rounded to two decimals. *)
Theorem endpoints_agree_on_last_close (yf : Market) (e : TrendEntry)
        (m : MomentumRow) (a : AverageRow)
        (momentum : list MomentumRow) (averages : list AverageRow) :
  In e (entries (auto_trends yf)) ->
  momentum_stocks yf = (Json momentum, 200%nat) -> In m momentum ->
  moving_average_stocks yf = (Json averages, 200%nat) -> In a averages ->
  (momentum_symbol m = trend_symbol e ->
   momentum_last_close m = trend_last_close e /\ momentum_as_of m = trend_as_of e)
  /\ (average_symbol a = momentum_symbol m ->
      average_last_close a = round2 (momentum_last_close m)
      /\ average_as_of a = momentum_as_of m).
Proof.
  intros He Hm Hinm Ha Hina.
  assert (He' : exists s, In e (trend_rows yf s)).
  { unfold auto_trends in He. rewrite entries_auto_trends in He.
    apply in_flat_map in He. destruct He as [s [_ He]]. exists s. exact He. }
  assert (Hm' : exists s, In m (momentum_rows yf 5 s)).
  { destruct (momentum_reply yf) as [Hnone Hsome].
    assert (D : valid_momentum yf NIFTY_100 = [] \/ valid_momentum yf NIFTY_100 <> []).
    { destruct (valid_momentum yf NIFTY_100); [left; reflexivity | right; discriminate]. }
    destruct D as [E|E].
    - destruct (Hnone E) as [[msg Herr] _]. rewrite Herr in Hm. discriminate.
    - destruct (Hsome E) as [Hjson _]. rewrite Hjson in Hm.
      injection Hm as <-.
      apply (Permutation_in _ (sort_values_perm change_pct _)) in Hinm.
      unfold valid_momentum in Hinm. apply filter_In in Hinm.
      destruct Hinm as [Hinm _].
      apply in_flat_map in Hinm. destruct Hinm as [s [_ Hinm]].
      exists s. exact Hinm. }
  assert (Ha' : exists s, In a (average_rows yf s)).
  { unfold moving_average_stocks, moving_average_stocks_on in Ha.
    destruct (existsb (average_raises yf) NIFTY_100) eqn:Hq.
    - apply existsb_exists in Hq. destruct Hq as [s [Hs Hr]].
      rewrite (raising_ticker_ends_loop yf NIFTY_100 s Hs Hr) in Ha. discriminate.
    - rewrite (moving_average_loop_rows yf NIFTY_100 [] Hq), app_nil_l in Ha.
      destruct (flat_map (average_rows yf) NIFTY_100) as [|r rows] eqn:E;
        [discriminate|].
      injection Ha as <-.
      apply (Permutation_in _ (sort_values_perm deviation_pct _)) in Hina.
      rewrite <- E in Hina.
      apply in_flat_map in Hina. destruct Hina as [s [_ Hina]].
      exists s. exact Hina. }
  destruct He' as [se Hse]. destruct Hm' as [sm Hsm]. destruct Ha' as [sa Hsa].
  destruct (trend_rows_fields yf se e Hse) as [E1 [E2 E3]].
  destruct (momentum_rows_fields yf sm m Hsm) as [M1 [M2 M3]].
  destruct (average_rows_fields yf sa a Hsa) as [A1 [A2 A3]].
  split.
  - intros Hsame. assert (sm = se) by congruence. subst sm.
    split; congruence.
  - intros Hsame. assert (sa = sm) by congruence. subst sa.
    split; congruence.
Qed.

Lemma endpoints_agree_on_last_close_witness :
  exists e m a,
    In e (entries (auto_trends full_market))
    /\ momentum_symbol m = trend_symbol e
    /\ average_symbol a = momentum_symbol m
    /\ momentum_last_close m = trend_last_close e
    /\ momentum_as_of m = trend_as_of e
    /\ average_last_close a = round2 (momentum_last_close m)
    /\ average_as_of a = momentum_as_of m.
Proof.
  set (momentum := match momentum_stocks full_market with
                   | (Json l, _) => l
                   | _ => []
                   end).
  set (averages := match moving_average_stocks full_market with
                   | (Json l, _) => l
                   | _ => []
                   end).
  set (e := hd (mkTrendEntry "" None 0 0 "" [] []) (entries (auto_trends full_market))).
  set (m := hd (mkMomentumRow "" NaN 0 "")
               (filter (fun r => String.eqb (momentum_symbol r) "RELIANCE.NS")
                       momentum)).
  set (a := hd (mkAverageRow "" 0 0 NaN "" NaN "")
               (filter (fun r => String.eqb (average_symbol r) "RELIANCE.NS")
                       averages)).
  assert (He : In e (entries (auto_trends full_market)))
    by (vm_compute; left; reflexivity).
  assert (Hm : momentum_stocks full_market = (Json momentum, 200%nat))
    by (vm_compute; reflexivity).
  assert (Hinm : In m momentum)
    by (vm_compute; repeat (first [left; reflexivity | right])).
  assert (Ha : moving_average_stocks full_market = (Json averages, 200%nat))
    by (vm_compute; reflexivity).
  assert (Hina : In a averages)
    by (vm_compute; repeat (first [left; reflexivity | right])).
  destruct (endpoints_agree_on_last_close full_market e m a momentum averages
              He Hm Hinm Ha Hina) as [Htrend Haverage].
  assert (Hsm : momentum_symbol m = trend_symbol e) by (vm_compute; reflexivity).
  assert (Hsa : average_symbol a = momentum_symbol m) by (vm_compute; reflexivity).
  destruct (Htrend Hsm) as [H1 H2]. destruct (Haverage Hsa) as [H3 H4].
  exists e, m, a. repeat split; assumption.
Defined.

(** * The momentum ranking and the data *)

Lemma Qeq_bool_zero (x : Q) :
  Qeq_bool x 0 = match Qcompare x 0 with Eq => true | _ => false end.
Proof.
  destruct (x ?= 0) eqn:E.
  - apply Qeq_bool_iff. apply Qcompare_Eq_iff. exact E.
  - apply (proj1 (Qcompare_Lt_iff x 0)) in E.
    destruct (Qeq_bool x 0) eqn:B; [|reflexivity].
    apply (proj1 (Qeq_bool_iff x 0)) in B. lra.
  - apply (proj1 (Qcompare_Gt_iff x 0)) in E.
    destruct (Qeq_bool x 0) eqn:B; [|reflexivity].
    apply (proj1 (Qeq_bool_iff x 0)) in B. lra.
Qed.

(** The change reported for a quotient is missing exactly when the quotient
    is 0 / 0. *)
Lemma change_is_nan (a b : Q) :
  is_nan (fround2 (fmul (fsub (fdiv a b) 1) 100))
  = Qeq_bool a 0 && Qeq_bool b 0.
Proof.
  rewrite !Qeq_bool_zero. unfold fdiv.
  destruct (b ?= 0); destruct (a ?= 0); reflexivity.
Qed.

(** The last row of the change column of a frame with at least six closes. *)
Lemma last_change (closes : list Q) :
  (6 <= List.length closes)%nat ->
  iloc_last (map (fun x => fmul x 100) (pct_change 5 closes)) NaN
  = fmul (fsub (fdiv (nth (List.length closes - 1) closes 0)
                     (nth (List.length closes - 6) closes 0)) 1) 100.
Proof.
  intros Hn. set (n := List.length closes) in *.
  unfold iloc_last. rewrite last_is_nth, length_map, length_pct_change. fold n.
  rewrite (map_nth (fun x => fmul x 100) (pct_change 5 closes) NaN (n - 1)
           : nth (n - 1) (map (fun x => fmul x 100) (pct_change 5 closes)) NaN = _).
  rewrite nth_pct_change by (fold n; lia).
  destruct (Nat.ltb_spec (n - 1) 5) as [Hlt|_]; [lia|].
  replace (n - 1 - 5)%nat with (n - 6)%nat by lia. reflexivity.
Qed.

(** What one ticker adds to the table, read off its data. *)
Lemma momentum_rows_valid (yf : Market) (s : string) :
  map momentum_symbol
      (filter (fun r => negb (is_nan (change_pct r))) (momentum_rows yf 5 s))
  = if has_momentum yf s then [s] else [].
Proof.
  unfold has_momentum, momentum_rows. rewrite failed_unusable.
  destruct (failed yf s); [reflexivity|]. cbn [negb andb].
  set (df := get_stock_data yf s).
  set (closes := column "Close" df). set (n := List.length closes).
  destruct (Nat.leb_spec 6 n) as [Hlong|Hshort].
  - cbn [andb]. unfold momentum_row. fold closes.
    pose proof (last_change closes Hlong) as Hlast. fold n in Hlast.
    set (change := map (fun x => fmul x 100) (pct_change 5 closes)) in *.
    pose proof (change_is_nan (nth (n - 1) closes 0) (nth (n - 6) closes 0)) as Hnan.
    destruct (dropna change) as [|x rest] eqn:D.
    + assert (Hin : In (iloc_last change NaN) change).
      { unfold iloc_last. rewrite last_is_nth. apply nth_In.
        unfold change. rewrite length_map, length_pct_change. fold n. lia. }
      destruct (Qeq_bool (nth (n - 1) closes 0) 0
                && Qeq_bool (nth (n - 6) closes 0) 0) eqn:Z; [reflexivity|].
      exfalso. apply (filter_nonempty (fun y => negb (is_nan y)) change _ Hin);
        [|exact D].
      rewrite Hlast.
      destruct (fdiv (nth (n - 1) closes 0) (nth (n - 6) closes 0));
        simpl in *; congruence.
    + cbn [filter change_pct map]. rewrite Hlast, Hnan.
      destruct (Qeq_bool (nth (n - 1) closes 0) 0
                && Qeq_bool (nth (n - 6) closes 0) 0); reflexivity.
  - cbn [andb]. rewrite momentum_row_short by (fold closes; fold n; lia).
    reflexivity.
Qed.

Lemma valid_momentum_symbols (yf : Market) (symbols : list string) :
  map momentum_symbol (valid_momentum yf symbols)
  = filter (has_momentum yf) symbols.
Proof.
  unfold valid_momentum.
  induction symbols as [|s rest IH]; [reflexivity|].
  simpl flat_map. rewrite filter_app, map_app, IH, momentum_rows_valid.
  simpl filter. destruct (has_momentum yf s); reflexivity.
Qed.

(** C7.  /api/momentum answers 200 with exactly one record for every ticker
    that has valid momentum data (a download that did not fail, at least six
    closes, a five-day change that is a number), each carrying the last close
    and date of its ticker's frame, in descending order of [change_pct]; it
    answers 400 exactly when no ticker has valid momentum data. *)
Theorem momentum_ranking (yf : Market) :
  match momentum_stocks yf with
  | (Json records, code) =>
      code = 200%nat
      /\ Permutation (map momentum_symbol records)
                     (filter (has_momentum yf) NIFTY_100)
      /\ NoDup (map momentum_symbol records)
      /\ ranked records
      /\ Forall (fun r =>
                   is_nan (change_pct r) = false
                   /\ momentum_last_close r
                      = iloc_last (column "Close"
                                     (get_stock_data yf (momentum_symbol r))) 0
                   /\ momentum_as_of r
                      = strftime_ymd
                          (iloc_last (index (get_stock_data yf (momentum_symbol r)))
                                     epoch))
                records
  | (Error _, code) =>
      code = 400%nat /\ filter (has_momentum yf) NIFTY_100 = []
  | (Unhandled _, _) => False
  end.
Proof.
  unfold momentum_stocks, momentum_stocks_on.
  pose proof (valid_momentum_symbols yf NIFTY_100) as Hsym.
  destruct (calculate_momentum_data_valid yf NIFTY_100)
    as [[Hnone [msg ->]] | [Hsome ->]].
  - split; [reflexivity|]. rewrite <- Hsym, Hnone. reflexivity.
  - pose proof (sort_values_perm change_pct (valid_momentum yf NIFTY_100)) as Hperm.
    split; [reflexivity|].
    split; [rewrite <- Hsym; apply Permutation_map; exact Hperm|].
    split.
    { apply (Permutation_NoDup (Permutation_map momentum_symbol (Permutation_sym Hperm))).
      apply valid_momentum_NoDup, NIFTY_100_NoDup. }
    split; [apply ranking_ranked|].
    apply Forall_forall. intros r Hr.
    apply (Permutation_in _ Hperm) in Hr.
    unfold valid_momentum in Hr. apply filter_In in Hr. destruct Hr as [Hr Hnum].
    apply in_flat_map in Hr. destruct Hr as [s [_ Hr]].
    destruct (momentum_rows_fields yf s r Hr) as [-> [Hclose Hdate]].
    split; [|split; assumption].
    destruct (is_nan (change_pct r)); [discriminate | reflexivity].
Qed.

Lemma momentum_ranking_witness :
  exists records,
    momentum_stocks full_market = (Json records, 200%nat)
    /\ Permutation (map momentum_symbol records)
                   ["RELIANCE.NS"; "TCS.NS"; "INFY.NS"; "HDFCBANK.NS";
                    "ICICIBANK.NS"; "BHARTIARTL.NS"; "HINDUNILVR.NS"; "ITC.NS";
                    "LT.NS"]
    /\ ranked records.
Proof.
  set (records := match momentum_stocks full_market with
                  | (Json l, _) => l
                  | _ => []
                  end).
  assert (E : momentum_stocks full_market = (Json records, 200%nat))
    by (vm_compute; reflexivity).
  pose proof (momentum_ranking full_market) as H. rewrite E in H.
  destruct H as [_ [Hperm [_ [Hranked _]]]].
  exists records. split; [exact E|]. split; [|exact Hranked].
  replace ["RELIANCE.NS"; "TCS.NS"; "INFY.NS"; "HDFCBANK.NS";
           "ICICIBANK.NS"; "BHARTIARTL.NS"; "HINDUNILVR.NS"; "ITC.NS"; "LT.NS"]
    with (filter (has_momentum full_market) NIFTY_100)
    by (vm_compute; reflexivity).
  exact Hperm.
Defined.

(** * The reported momentum in binary64 *)

Lemma b64_length_shift (p : nat) (s : list Binary64.number) :
  List.length (Binary64.shift p s) = List.length s.
Proof.
  unfold Binary64.shift.
  rewrite length_firstn, length_app, repeat_length, length_map. lia.
Qed.

Lemma b64_nth_shift (p : nat) (s : list Binary64.number) (i : nat) :
  (i < List.length s)%nat ->
  nth i (Binary64.shift p s) None
  = if (i <? p)%nat then None else Some (nth (i - p) s PrimFloat.nan).
Proof.
  intros Hi. unfold Binary64.shift. rewrite nth_firstn.
  destruct (Nat.ltb_spec i (List.length s)) as [_|]; [|lia].
  destruct (Nat.ltb_spec i p) as [Hlt|Hge].
  - rewrite app_nth1 by (rewrite repeat_length; assumption).
    apply nth_repeat.
  - rewrite app_nth2 by (rewrite repeat_length; assumption).
    rewrite repeat_length.
    rewrite (nth_indep _ None (Some PrimFloat.nan)) by (rewrite length_map; lia).
    apply (map_nth Some).
Qed.

Lemma b64_length_pct_change (p : nat) (s : list Binary64.number) :
  List.length (Binary64.pct_change p s) = List.length s.
Proof.
  unfold Binary64.pct_change.
  rewrite length_map, length_combine, b64_length_shift. lia.
Qed.

(** Row [i] of the binary64 [pct_change]: one division and one subtraction
    on the two closes involved. *)
Lemma b64_nth_pct_change (p : nat) (s : list Binary64.number) (i : nat) :
  (i < List.length s)%nat ->
  nth i (Binary64.pct_change p s) PrimFloat.nan
  = if (i <? p)%nat then PrimFloat.nan
    else PrimFloat.sub (PrimFloat.div (nth i s PrimFloat.nan)
                                      (nth (i - p) s PrimFloat.nan))
                       Binary64.one.
Proof.
  intros Hi. unfold Binary64.pct_change.
  match goal with
  | |- nth i (map ?g ?l) _ = _ =>
      assert (H : nth i (map g l) PrimFloat.nan
                  = g (nth i l (PrimFloat.nan, None)))
        by exact (map_nth g l (PrimFloat.nan, None) i)
  end.
  rewrite H, combine_nth by (symmetry; apply b64_length_shift).
  cbn [fst snd]. rewrite (b64_nth_shift p s i Hi).
  destruct (i <? p)%nat; reflexivity.
Qed.

Lemma b64_last_change (closes : list Binary64.number) :
  (6 <= List.length closes)%nat ->
  iloc_last (map (fun x => PrimFloat.mul x Binary64.hundred)
                 (Binary64.pct_change 5 closes)) PrimFloat.nan
  = PrimFloat.mul
      (PrimFloat.sub
         (PrimFloat.div (nth (List.length closes - 1) closes PrimFloat.nan)
                        (nth (List.length closes - 6) closes PrimFloat.nan))
         Binary64.one)
      Binary64.hundred.
Proof.
  intros Hn. set (n := List.length closes) in *.
  unfold iloc_last. rewrite last_is_nth, length_map, b64_length_pct_change. fold n.
  rewrite (nth_indep _ PrimFloat.nan (PrimFloat.mul PrimFloat.nan Binary64.hundred))
    by (rewrite length_map, b64_length_pct_change; fold n; lia).
  rewrite (map_nth (fun x => PrimFloat.mul x Binary64.hundred)).
  rewrite b64_nth_pct_change by (fold n; lia).
  destruct (Nat.ltb_spec (n - 1) 5) as [Hlt|_]; [lia|].
  replace (n - 1 - 5)%nat with (n - 6)%nat by lia. reflexivity.
Qed.

Lemma b64_loop_keeps (yf : Market) (periods : nat) (symbols : list string)
      (r : Binary64.MomentumRow) :
  forall results,
    In r results -> In r (Binary64.momentum_loop yf periods symbols results).
Proof.
  induction symbols as [|s rest IH]; intros results Hr; [exact Hr|].
  simpl. destruct (unusable (get_stock_data yf s)); [apply IH; exact Hr|].
  destruct (Binary64.momentum_row periods s (get_stock_data yf s));
    apply IH; [apply in_or_app; left|]; exact Hr.
Qed.

Lemma b64_loop_appends (yf : Market) (periods : nat) (symbols : list string)
      (s : string) (r : Binary64.MomentumRow) :
  In s symbols ->
  unusable (get_stock_data yf s) = false ->
  Binary64.momentum_row periods s (get_stock_data yf s) = Some r ->
  forall results, In r (Binary64.momentum_loop yf periods symbols results).
Proof.
  intros Hin Hu Hrow.
  induction symbols as [|x rest IH]; intros results; [destruct Hin|].
  destruct Hin as [->|Hin].
  - simpl. rewrite Hu, Hrow. apply b64_loop_keeps.
    apply in_or_app. right. left. reflexivity.
  - simpl. destruct (unusable (get_stock_data yf x)); [apply IH; exact Hin|].
    destruct (Binary64.momentum_row periods x (get_stock_data yf x));
      apply IH; exact Hin.
Qed.

Lemma b64_insert_desc_In (x r : Binary64.MomentumRow) (l : list Binary64.MomentumRow) :
  In r (x :: l) -> In r (Binary64.insert_desc x l).
Proof.
  induction l as [|y rest IH]; intros Hr; [exact Hr|].
  simpl. destruct (PrimFloat.leb _ _); [exact Hr|].
  destruct Hr as [<-|[<-|Hr]].
  - right. apply IH. left. reflexivity.
  - left. reflexivity.
  - right. apply IH. right. exact Hr.
Qed.

Lemma b64_sort_values_In (r : Binary64.MomentumRow) (l : list Binary64.MomentumRow) :
  In r l -> In r (Binary64.sort_values l).
Proof.
  intros Hr. unfold Binary64.sort_values. apply in_or_app.
  destruct (PrimFloat.is_nan (Binary64.change_pct r)) eqn:E.
  - right. apply filter_In. split; assumption.
  - left.
    assert (Hf : In r (filter (fun r0 => negb (PrimFloat.is_nan (Binary64.change_pct r0))) l)).
    { apply filter_In. split; [exact Hr|]. rewrite E. reflexivity. }
    induction (filter (fun r0 => negb (PrimFloat.is_nan (Binary64.change_pct r0))) l)
      as [|y rest IH]; [destruct Hf|].
    simpl. apply b64_insert_desc_In.
    destruct Hf as [<-|Hf]; [left; reflexivity | right; apply IH; exact Hf].
Qed.

(** C5.  For every ticker of the list whose frame is usable and has at
    least six closes, and whose five-day change is a number,
    [calculate_momentum_data] returns a table holding that ticker's row, and
    the row's [change_pct] is (close[last] / close[last-5] - 1) * 100, each
    operation in binary64 as pandas performs it, rounded to 2 decimals by
    Python's [round]. *)
Theorem momentum_is_five_day_change (yf : Market) (symbol_list : list string)
        (symbol : string) :
  let closes := Binary64.closes (get_stock_data yf symbol) in
  let n := List.length closes in
  let change :=
    PrimFloat.mul
      (PrimFloat.sub
         (PrimFloat.div (nth (n - 1) closes PrimFloat.nan)
                        (nth (n - 6) closes PrimFloat.nan))
         Binary64.one)
      Binary64.hundred in
  In symbol symbol_list ->
  failed yf symbol = false ->
  (6 <= n)%nat ->
  PrimFloat.is_nan change = false ->
  PrimFloat.is_nan (Binary64.round change) = false ->
  exists table row,
    Binary64.calculate_momentum_data yf symbol_list 5 = (table, None)
    /\ In row table
    /\ Binary64.symbol row = symbol
    /\ Binary64.change_pct row = Binary64.round change.
Proof.
  intros closes n change Hin Hok Hn Hnum Hround.
  set (df := get_stock_data yf symbol) in *.
  assert (Hu : unusable df = false) by (unfold df; rewrite failed_unusable; exact Hok).
  pose proof (b64_last_change closes Hn) as Hlast. fold n in Hlast. fold change in Hlast.
  set (column_change := map (fun x => PrimFloat.mul x Binary64.hundred)
                            (Binary64.pct_change 5 closes)) in *.
  assert (Hrow : Binary64.momentum_row 5 symbol df
                 = Some (Binary64.mkMomentumRow symbol (Binary64.round change)
                           (iloc_last closes PrimFloat.nan)
                           (strftime_ymd (iloc_last (index df) epoch)))).
  { unfold Binary64.momentum_row. fold closes. fold column_change.
    assert (Hmember : In (iloc_last column_change PrimFloat.nan) column_change).
    { unfold iloc_last. rewrite last_is_nth. apply nth_In.
      unfold column_change. rewrite length_map, b64_length_pct_change. fold n. lia. }
    pose proof (filter_nonempty (fun x => negb (PrimFloat.is_nan x))
                  column_change _ Hmember) as Hne.
    rewrite Hlast, Hnum in Hne. specialize (Hne eq_refl).
    unfold Binary64.dropna.
    destruct (filter _ column_change); [contradiction|].
    rewrite Hlast. reflexivity. }
  set (row := Binary64.mkMomentumRow symbol (Binary64.round change)
                (iloc_last closes PrimFloat.nan)
                (strftime_ymd (iloc_last (index df) epoch))) in *.
  pose proof (b64_loop_appends yf 5 symbol_list symbol row Hin Hu Hrow []) as Hloop.
  unfold Binary64.calculate_momentum_data.
  destruct (Binary64.momentum_loop yf 5 symbol_list []) as [|r results] eqn:L;
    [destruct Hloop|].
  assert (Hkept : In row (filter (fun r0 => negb (PrimFloat.is_nan
                                                   (Binary64.change_pct r0)))
                                 (r :: results))).
  { apply filter_In. split; [exact Hloop|]. cbn [Binary64.change_pct row].
    rewrite Hround. reflexivity. }
  destruct (filter _ (r :: results)) as [|v valid] eqn:F; [destruct Hkept|].
  exists (Binary64.sort_values (v :: valid)), row.
  split; [reflexivity|].
  split; [apply b64_sort_values_In; exact Hkept|].
  split; reflexivity.
Qed.

Lemma momentum_is_five_day_change_witness :
  exists table row,
    Binary64.calculate_momentum_data tick_market NIFTY_100 5 = (table, None)
    /\ In row table
    /\ Binary64.symbol row = "TCS.NS"
    /\ Binary64.change_pct row = Binary64.nearest (1 # 100).
Proof.
  destruct (momentum_is_five_day_change tick_market NIFTY_100 "TCS.NS")
    as [table [row [Htable [Hrow [Hsymbol Hchange]]]]].
  - simpl. tauto.
  - reflexivity.
  - vm_compute. lia.
  - vm_compute. reflexivity.
  - vm_compute. reflexivity.
  - exists table, row. split; [exact Htable|]. split; [exact Hrow|].
    split; [exact Hsymbol|]. rewrite Hchange. vm_compute. reflexivity.
Defined.
